(** * Niche Researcher: the scraper engine (src/scraper_engine.py)

    A shallow embedding of [ProxyManager], of the retry loop
    [ScraperEngine._make_request_with_retry], of the four per-platform
    extraction routines and of [ScraperEngine.scrape_all_platforms],
    followed by the properties established about them.

    Conventions.
    - Python integers are [Z]; list positions and loop counters that the code
      never lets go negative are [nat].
    - Python [str] is [string] (the byte strings of the Standard Library);
      [None]-or-string values are [option string].
    - A Python call that may raise returns [exn + A]; code that also touches
      the engine's mutable state, the network or the log runs in the monad
      [M] below (state passing with an error component).
    - The outside world (HTTP, headless browser, operator console, random
      choice) and the BeautifulSoup queries are parameters of the
      development: the engine is verified against every behaviour they can
      show. *)

From Stdlib Require Import ZArith List String Ascii Bool Lia Arith.
Import ListNotations.

Local Open Scope string_scope.
Local Open Scope Z_scope.

Set Warnings "-register-all".

(** ** Exceptions *)

(** The exceptions the modelled code can meet; [OtherError] stands for any
    exception raised by a library or by the network, with its message. *)
Inductive exn : Type :=
| ValueError
| IndexError
| KeyError
| OtherError (what : string).

(** ** Python string operations used by the engine *)

Module PyStr.

(** ASCII white space as [str.isspace] sees it. *)
Definition isspace (c : ascii) : bool :=
  let n := nat_of_ascii c in
  ((9 <=? n) && (n <=? 13) || (28 <=? n) && (n <=? 32))%nat.

(** [s.lstrip()] *)
Fixpoint lstrip (s : string) : string :=
  match s with
  | EmptyString => EmptyString
  | String c s' => if isspace c then lstrip s' else s
  end.

(** [s.rstrip()] *)
Fixpoint rstrip (s : string) : string :=
  match s with
  | EmptyString => EmptyString
  | String c s' =>
      match rstrip s' with
      | EmptyString => if isspace c then EmptyString else String c EmptyString
      | r => String c r
      end
  end.

(** [s.strip()] *)
Definition strip (s : string) : string := rstrip (lstrip s).

(** [s.lstrip(ch)] for a one-character argument. *)
Fixpoint lstrip_char (ch : ascii) (s : string) : string :=
  match s with
  | EmptyString => EmptyString
  | String c s' => if Ascii.eqb c ch then lstrip_char ch s' else s
  end.

(** [s.lower()] on ASCII letters. *)
Definition lower_char (c : ascii) : ascii :=
  let n := nat_of_ascii c in
  if ((65 <=? n) && (n <=? 90))%nat then ascii_of_nat (n + 32) else c.

Fixpoint lower (s : string) : string :=
  match s with
  | EmptyString => EmptyString
  | String c s' => String (lower_char c) (lower s')
  end.

(** [needle in hay] *)
Fixpoint contains (needle hay : string) : bool :=
  String.prefix needle hay
  || match hay with
     | EmptyString => false
     | String _ hay' => contains needle hay'
     end.

(** [s.replace(a, b)] for one-character [a] and [b]. *)
Fixpoint replace_char (a b : ascii) (s : string) : string :=
  match s with
  | EmptyString => EmptyString
  | String c s' => String (if Ascii.eqb c a then b else c) (replace_char a b s')
  end.

(** [s.split(sep)] for a one-character separator: the pieces between the
    occurrences of [sep]; never the empty list. *)
Fixpoint split (sep : ascii) (s : string) : list string :=
  match s with
  | EmptyString => [EmptyString]
  | String c s' =>
      if Ascii.eqb c sep then EmptyString :: split sep s'
      else match split sep s' with
           | [] => [String c EmptyString]
           | piece :: pieces => String c piece :: pieces
           end
  end.

(** [pieces[-1]]; [split] never returns the empty list, for which Python
    would raise. *)
Definition last_piece (pieces : list string) : string :=
  List.last pieces EmptyString.

(** [c] occurs in [s]. *)
Fixpoint has_char (c : ascii) (s : string) : bool :=
  match s with
  | EmptyString => false
  | String c' s' => Ascii.eqb c' c || has_char c s'
  end.

(** Truthiness of a string: [bool(s)]. *)
Definition truthy (s : string) : bool :=
  match s with EmptyString => false | _ => true end.

End PyStr.

(** ** ProxyManager *)

(** One entry of [proxy_config['providers']]: a dict read with [.get('url')]. *)
Record provider : Type := Provider { url : option string }.

Record ProxyManager : Type := mkProxyManager {
  enabled : bool;
  rotation : bool;
  proxies : list provider;
  current_index : nat
}.

(** [ProxyManager.__init__]: the three settings with their defaults already
    applied, and the cursor at 0. *)
Definition ProxyManager_init (enabled rotation : bool) (providers : list provider)
  : ProxyManager :=
  mkProxyManager enabled rotation providers 0.

(** [ProxyManager.get_proxy]: the value returned (or the exception raised) and
    the manager after the call.  [self.proxies[i]] raises [IndexError] out of
    range; the modulus is taken only when the list is not empty. *)
Definition get_proxy (self : ProxyManager) : (exn + option string) * ProxyManager :=
  if negb (enabled self) || (match proxies self with [] => true | _ => false end)
  then (inr None, self)
  else if rotation self then
    match nth_error (proxies self) (current_index self) with
    | None => (inl IndexError, self)
    | Some proxy =>
        (inr (url proxy),
         mkProxyManager (enabled self) (rotation self) (proxies self)
           ((current_index self + 1) mod List.length (proxies self))%nat)
    end
  else
    match nth_error (proxies self) 0 with
    | None => (inl IndexError, self)
    | Some proxy => (inr (url proxy), self)
    end.

(** The manager after [n] successive calls of [get_proxy]. *)
Fixpoint after_calls (n : nat) (self : ProxyManager) : ProxyManager :=
  match n with
  | O => self
  | S n' => after_calls n' (snd (get_proxy self))
  end.

(** The value returned by the call that follows [n] earlier calls. *)
Definition nth_call (n : nat) (self : ProxyManager) : exn + option string :=
  fst (get_proxy (after_calls n self)).

(** ** UserAgentManager *)

Definition default_user_agent : string :=
  "Mozilla/5.0 (Windows NT 10.0; Win64; x64) AppleWebKit/537.36 (KHTML, like Gecko) Chrome/91.0.4472.124 Safari/537.36".

(** [UserAgentManager.__init__]: [user_agents or [default]]. *)
Definition UserAgentManager_init (user_agents : list string) : list string :=
  match user_agents with
  | [] => [default_user_agent]
  | _ => user_agents
  end.

(** ** Configuration *)

(** One entry of [config['platforms']]; a key that is absent is [None]. *)
Record platform_config : Type := mkPlatform {
  p_name : option string;
  p_enabled : option bool;
  p_base_url : option string;
  p_tags : option (list string);
  p_categories : option (list string);
  p_subreddits : option (list string);
  p_search_queries : option (list string)
}.

(** [d.get(key, default)] once the key has been looked up. *)
Definition get_default {A : Type} (o : option A) (default : A) : A :=
  match o with Some v => v | None => default end.

(** The immutable attributes that [ScraperEngine.__init__] reads from the
    configuration ([self.proxy_manager] is mutable and lives in the state). *)
Record ScraperEngine : Type := mkEngine {
  max_retries : Z;
  timeout : Z;
  delay : Z;
  user_agents : list string;
  platforms_config : list platform_config
}.

(** ** PLATFORM_SELECTORS *)

(** The double-quote character, for the selectors that contain it. *)
Definition dq : string := String (ascii_of_nat 34) EmptyString.

Module PLATFORM_SELECTORS.
Definition tiktok_hashtags := ".hashtag".
Definition tiktok_views := ".video-count".
Definition tiktok_fallback_hashtags := "a[href*=" ++ dq ++ "/tag/" ++ dq ++ "]".
Definition amazon_products := "[data-zg-item]".
Definition amazon_product_name := ".p13n-sc-truncated".
Definition amazon_price := ".p13n-sc-price".
Definition amazon_rating := ".a-icon-alt".
Definition amazon_fallback_products := ".zg-item".
Definition reddit_posts := "[data-testid=" ++ dq ++ "post-container" ++ dq ++ "]".
Definition reddit_title := "[data-testid=" ++ dq ++ "post-title" ++ dq ++ "]".
Definition reddit_upvotes := "[data-testid=" ++ dq ++ "upvote-count" ++ dq ++ "]".
Definition reddit_comments := "[data-testid=" ++ dq ++ "comment-count" ++ dq ++ "]".
Definition reddit_fallback_posts := ".Post".
Definition youtube_videos := "ytd-video-renderer,ytd-grid-video-renderer".
Definition youtube_title := "#video-title".
Definition youtube_views := "#metadata-line span:first-child".
Definition youtube_date := "#metadata-line span:last-child".
Definition youtube_fallback_videos := ".yt-simple-endpoint.ytd-video-renderer".
End PLATFORM_SELECTORS.

(** ** The outside world *)

(** What the engine cannot decide by itself, as a function of the moment
    [t] (the number of fetch attempts started before this one) and of what
    the engine sends.
    - [requests_get t url user_agent proxy timeout]: [response.text] of
      [requests.get] followed by [raise_for_status], or the exception of
      either (connection error, timeout, non-2xx status);
    - [browser_page_source t url proxy user_agent]: [driver.page_source] after
      [goto] and [wait], or the exception of the browser session;
    - [operator_page_source t]: [driver.page_source] once the operator has
      answered [input()], or the exception of the console;
    - [random_choice t l]: the element [random.choice(l)] picks. *)
Record World : Type := mkWorld {
  requests_get : nat -> string -> string -> option string -> Z -> exn + string;
  browser_page_source : nat -> string -> option string -> string -> exn + string;
  operator_page_source : nat -> exn + string;
  random_choice : nat -> list string -> string
}.

(** The BeautifulSoup queries the engine uses.  Queries may raise; an
    element or attribute that is not there is [None]. *)
Record Bs4 : Type := mkBs4 {
  Soup : Type;
  Tag : Type;
  BeautifulSoup : string -> Soup;
  soup_select : Soup -> string -> exn + list Tag;
  select_one : Tag -> string -> exn + option Tag;
  find_next : Tag -> string -> exn + option Tag;
  text : Tag -> exn + string;
  attrs : Tag -> list (string * string)
}.

(** ** Observable effects *)

Inductive level : Type := INFO | WARNING | ERROR.

(** The messages the engine logs, with the values it formats into them. *)
Inductive message : Type :=
| MsgAttemptFailed (attempt : Z) (max_retries : Z) (e : exn)
| MsgWaiting (wait_time : Z)
| MsgFailedToRetrieve (url : string) (max_retries : Z)
| MsgCaptchaSwitchToBrowser
| MsgCaptchaManual
| MsgScraping (platform : string) (param : string)
| MsgFallbackSelector
| MsgErrorParsing (platform : string) (e : exn)
| MsgErrorInTask (e : exn)
| MsgCompleted (items : nat) (sources : nat).

Inductive event : Type :=
| Log (lv : level) (msg : message)
| Sleep (seconds : Z)
| BrowserGoto (url : string) (proxy : option string) (user_agent : string)
| RequestsGet (url : string) (user_agent : string) (proxy : option string) (timeout : Z)
| OperatorPrompt.

(** ** The state threaded through the engine *)

Record State : Type := mkState {
  proxy_manager : ProxyManager;
  clock : nat;
  trace : list event
}.

(** Computations that read and change the state and may raise. *)
Definition M (A : Type) : Type := State -> (exn + A) * State.

Definition ret {A : Type} (a : A) : M A := fun s => (inr a, s).

Definition bind {A B : Type} (m : M A) (f : A -> M B) : M B :=
  fun s =>
    match m s with
    | (inr a, s') => f a s'
    | (inl e, s') => (inl e, s')
    end.

Definition raise {A : Type} (e : exn) : M A := fun s => (inl e, s).

(** A call that may raise and leaves the state alone. *)
Definition lift {A : Type} (r : exn + A) : M A := fun s => (r, s).

Declare Scope engine_scope.
Delimit Scope engine_scope with engine.
Notation "x <- m ;; k" := (bind m (fun x => k))
  (at level 61, m at next level, right associativity) : engine_scope.
Notation "m ;; k" := (bind m (fun _ => k))
  (at level 61, right associativity) : engine_scope.
Local Open Scope engine_scope.

(** The same for calls without state. *)
Definition ebind {A B : Type} (r : exn + A) (f : A -> exn + B) : exn + B :=
  match r with
  | inr a => f a
  | inl e => inl e
  end.

Notation "x <-? r ;; k" := (ebind r (fun x => k))
  (at level 61, r at next level, right associativity) : engine_scope.

Definition emit (e : event) : M unit :=
  fun s => (inr tt, mkState (proxy_manager s) (clock s) (trace s ++ [e])).

(** The moment of a fetch attempt; the clock moves on. *)
Definition tick : M nat :=
  fun s => (inr (clock s), mkState (proxy_manager s) (S (clock s)) (trace s)).

(** [self.proxy_manager.get_proxy()] *)
Definition call_get_proxy : M (option string) :=
  fun s =>
    let (r, pm) := get_proxy (proxy_manager s) in
    (r, mkState pm (clock s) (trace s)).

(** [time.sleep(seconds)]: a negative length raises [ValueError]. *)
Definition sleep (seconds : Z) : M unit :=
  if seconds <? 0 then raise ValueError else emit (Sleep seconds).

(** [range(n)] *)
Definition range (n : Z) : list Z := map Z.of_nat (seq 0 (Z.to_nat n)).

(** ** ScraperEngine: CAPTCHA detection and the retry loop *)

Definition captcha_indicators : list string :=
  ["captcha"; "robot"; "human verification"; "security check"; "prove you're human"].

(** [ScraperEngine._check_for_captcha] *)
Definition _check_for_captcha (html_content : string) : bool :=
  let html_lower := PyStr.lower html_content in
  existsb (fun indicator => PyStr.contains indicator html_lower) captcha_indicators.

Section Engine.

Variable world : World.
Variable self : ScraperEngine.

(** [self.user_agent_manager.get_random_user_agent()] at moment [t]. *)
Definition get_random_user_agent (t : nat) : string :=
  random_choice world t (UserAgentManager_init (user_agents self)).

(** [ScraperEngine._handle_captcha]: the warning, the prompt and the wait for
    the operator, then the page as it is afterwards. *)
Definition _handle_captcha (t : nat) : M string :=
  emit (Log WARNING MsgCaptchaManual) ;;
  emit OperatorPrompt ;;
  lift (operator_page_source world t).

(** The [for attempt in range(self.max_retries)] loop of
    [_make_request_with_retry] around the body [try_body] of its [try]
    block (every path through which ends in a [return]).  An exception of the
    body is caught; the handler itself runs outside the [try], so a
    [time.sleep] that raises leaves the function.  Falling out of the loop
    returns [None]. *)
Fixpoint retry_loop (url : string) (try_body : M (option string)) (attempts : list Z)
  : M (option string) :=
  match attempts with
  | [] => ret None
  | attempt :: rest =>
      fun s =>
        match try_body s with
        | (inr content, s') => (inr content, s')
        | (inl e, s') =>
            (emit (Log WARNING (MsgAttemptFailed (attempt + 1) (max_retries self) e)) ;;
             if attempt <? max_retries self - 1 then
               let wait_time := delay self * (attempt + 1) in
               emit (Log INFO (MsgWaiting wait_time)) ;;
               sleep wait_time ;;
               retry_loop url try_body rest
             else
               emit (Log ERROR (MsgFailedToRetrieve url (max_retries self))) ;;
               ret None) s'
        end
  end.

(** The [try] body when [use_browser] is true. *)
Definition browser_attempt (url : string) : M (option string) :=
  t <- tick ;;
  proxy <- call_get_proxy ;;
  let user_agent := get_random_user_agent t in
  emit (BrowserGoto url proxy user_agent) ;;
  page_source <- lift (browser_page_source world t url proxy user_agent) ;;
  if _check_for_captcha page_source then
    content <- _handle_captcha t ;;
    ret (Some content)
  else
    ret (Some page_source).

(** [_make_request_with_retry(url, use_browser=True)] *)
Definition make_request_browser (url : string) : M (option string) :=
  retry_loop url (browser_attempt url) (range (max_retries self)).

(** The [try] body when [use_browser] is false.  Its recursive call passes
    [use_browser=True], whose body never calls back: the recursion is one
    level deep and is written here as a call of [make_request_browser]. *)
Definition direct_attempt (url : string) : M (option string) :=
  t <- tick ;;
  let user_agent := get_random_user_agent t in
  proxy <- call_get_proxy ;;
  emit (RequestsGet url user_agent proxy (timeout self)) ;;
  response_text <- lift (requests_get world t url user_agent proxy (timeout self)) ;;
  if _check_for_captcha response_text then
    emit (Log WARNING MsgCaptchaSwitchToBrowser) ;;
    make_request_browser url
  else
    ret (Some response_text).

(** [ScraperEngine._make_request_with_retry] *)
Definition _make_request_with_retry (url : string) (use_browser : bool)
  : M (option string) :=
  if use_browser then make_request_browser url
  else retry_loop url (direct_attempt url) (range (max_retries self)).

End Engine.

(** ** Extraction records *)

(** The values of a record's fields: strings, and [None] for a video
    identifier that could not be read. *)
Inductive value : Type :=
| VStr (s : string)
| VNone.

(** A record is the dict literal the code appends: keys in the order of the
    literal. *)
Definition record : Type := list (string * value).

(** [d.get(key)] on a dict given as its list of items. *)
Fixpoint dict_get {A : Type} (key : string) (d : list (string * A)) : option A :=
  match d with
  | [] => None
  | (k, v) :: d' => if String.eqb k key then Some v else dict_get key d'
  end.

(** Truthiness of a string-or-[None]. *)
Definition truthy_opt (o : option string) : bool :=
  match o with
  | Some s => PyStr.truthy s
  | None => false
  end.

(** ** ScraperEngine: the four extraction routines *)

Section Extraction.

Variable world : World.
Variable dom : Bs4.
Variable self : ScraperEngine.

(** [element.text.strip() if element else default] *)
Definition text_or (element : option (Tag dom)) (default : string) : exn + string :=
  match element with
  | Some el => t <-? text dom el ;; inr (PyStr.strip t)
  | None => inr default
  end.

(** [next((p for p in self.platforms_config if p.get('name') == name), {})]
    followed by [.get('base_url', default)]. *)
Definition base_url_of (name default : string) : string :=
  match find (fun p => match p_name p with
                       | Some n => String.eqb n name
                       | None => false
                       end) (platforms_config self) with
  | Some p => get_default (p_base_url p) default
  | None => default
  end.

(** The two [soup.select] calls: the fallback selector is tried when the
    primary one matched nothing. *)
Definition select_with_fallback (soup : Soup dom) (primary fallback : string)
  : M (list (Tag dom)) :=
  matched <- lift (soup_select dom soup primary) ;;
  match matched with
  | [] =>
      emit (Log INFO MsgFallbackSelector) ;;
      lift (soup_select dom soup fallback)
  | _ => ret matched
  end.

(** [data = []; for item in items: try: data.append(...) except Exception as
    e: logger.warning(...)], then [return data]: [parse_item] is the body of
    the [try], [data] what has been appended so far. *)
Fixpoint for_each_item (platform : string) (parse_item : Tag dom -> exn + record)
  (items : list (Tag dom)) (data : list record) : M (list record) :=
  match items with
  | [] => ret data
  | item :: rest =>
      match parse_item item with
      | inr r => for_each_item platform parse_item rest (data ++ [r])
      | inl e =>
          emit (Log WARNING (MsgErrorParsing platform e)) ;;
          for_each_item platform parse_item rest data
      end
  end.

(** The [try] body of [scrape_tiktok_hashtags]. *)
Definition parse_tiktok_item (base_url : string) (tag : Tag dom) : exn + record :=
  t <-? text dom tag ;;
  let tag_name := PyStr.strip t in
  let tag_name := PyStr.lstrip_char "#" tag_name in
  view_element <-? find_next dom tag PLATFORM_SELECTORS.tiktok_views ;;
  views <-? text_or view_element "N/A" ;;
  inr [("platform", VStr "tiktok");
       ("type", VStr "hashtag");
       ("name", VStr tag_name);
       ("views", VStr views);
       ("url", VStr (base_url ++ tag_name))].

(** [ScraperEngine.scrape_tiktok_hashtags] *)
Definition scrape_tiktok_hashtags (tag : string) : M (list record) :=
  let base_url := base_url_of "tiktok" "https://www.tiktok.com/tag/" in
  let url := base_url ++ tag in
  emit (Log INFO (MsgScraping "tiktok" tag)) ;;
  html_content <- _make_request_with_retry world self url true ;;
  if negb (truthy_opt html_content) then ret []
  else
    let soup := BeautifulSoup dom (get_default html_content "") in
    hashtags <- select_with_fallback soup PLATFORM_SELECTORS.tiktok_hashtags
                  PLATFORM_SELECTORS.tiktok_fallback_hashtags ;;
    for_each_item "tiktok" (parse_tiktok_item base_url) hashtags [].

(** The [try] body of [scrape_amazon_bestsellers]. *)
Definition parse_amazon_item (category : string) (product : Tag dom) : exn + record :=
  name_element <-? select_one dom product PLATFORM_SELECTORS.amazon_product_name ;;
  price_element <-? select_one dom product PLATFORM_SELECTORS.amazon_price ;;
  rating_element <-? select_one dom product PLATFORM_SELECTORS.amazon_rating ;;
  name <-? text_or name_element "N/A" ;;
  price <-? text_or price_element "N/A" ;;
  rating <-? text_or rating_element "N/A" ;;
  inr [("platform", VStr "amazon");
       ("type", VStr "product");
       ("category", VStr category);
       ("name", VStr name);
       ("price", VStr price);
       ("rating", VStr rating)].

(** [ScraperEngine.scrape_amazon_bestsellers] *)
Definition scrape_amazon_bestsellers (category : string) : M (list record) :=
  let base_url := base_url_of "amazon" "https://www.amazon.com/best-sellers/" in
  let url := base_url ++ category in
  emit (Log INFO (MsgScraping "amazon" category)) ;;
  html_content <- _make_request_with_retry world self url true ;;
  if negb (truthy_opt html_content) then ret []
  else
    let soup := BeautifulSoup dom (get_default html_content "") in
    products <- select_with_fallback soup PLATFORM_SELECTORS.amazon_products
                  PLATFORM_SELECTORS.amazon_fallback_products ;;
    for_each_item "amazon" (parse_amazon_item category) products [].

(** The [try] body of [scrape_reddit_posts]. *)
Definition parse_reddit_item (subreddit : string) (post : Tag dom) : exn + record :=
  title_element <-? select_one dom post PLATFORM_SELECTORS.reddit_title ;;
  upvotes_element <-? select_one dom post PLATFORM_SELECTORS.reddit_upvotes ;;
  comments_element <-? select_one dom post PLATFORM_SELECTORS.reddit_comments ;;
  title <-? text_or title_element "N/A" ;;
  upvotes <-? text_or upvotes_element "0" ;;
  comments <-? text_or comments_element "0" ;;
  inr [("platform", VStr "reddit");
       ("type", VStr "post");
       ("subreddit", VStr subreddit);
       ("title", VStr title);
       ("upvotes", VStr upvotes);
       ("comments", VStr comments)].

(** [ScraperEngine.scrape_reddit_posts] *)
Definition scrape_reddit_posts (subreddit : string) : M (list record) :=
  let base_url := base_url_of "reddit" "https://www.reddit.com/r/" in
  let url := base_url ++ subreddit in
  emit (Log INFO (MsgScraping "reddit" subreddit)) ;;
  html_content <- _make_request_with_retry world self url true ;;
  if negb (truthy_opt html_content) then ret []
  else
    let soup := BeautifulSoup dom (get_default html_content "") in
    posts <- select_with_fallback soup PLATFORM_SELECTORS.reddit_posts
               PLATFORM_SELECTORS.reddit_fallback_posts ;;
    for_each_item "reddit" (parse_reddit_item subreddit) posts [].

(** [title_element['href'].split('=')[-1]] when [title_element] is there and
    [has_attr('href')], [None] otherwise. *)
Definition video_id_of (title_element : option (Tag dom)) : option string :=
  match title_element with
  | Some el =>
      match dict_get "href" (attrs dom el) with
      | Some href => Some (PyStr.last_piece (PyStr.split "=" href))
      | None => None
      end
  | None => None
  end.

(** The [try] body of [scrape_youtube_videos]. *)
Definition parse_youtube_item (query : string) (video : Tag dom) : exn + record :=
  title_element <-? select_one dom video PLATFORM_SELECTORS.youtube_title ;;
  views_element <-? select_one dom video PLATFORM_SELECTORS.youtube_views ;;
  date_element <-? select_one dom video PLATFORM_SELECTORS.youtube_date ;;
  title <-? text_or title_element "N/A" ;;
  views <-? text_or views_element "N/A" ;;
  date <-? text_or date_element "N/A" ;;
  let video_id := video_id_of title_element in
  inr [("platform", VStr "youtube");
       ("type", VStr "video");
       ("query", VStr query);
       ("title", VStr title);
       ("views", VStr views);
       ("date", VStr date);
       ("video_id", match video_id with Some v => VStr v | None => VNone end);
       ("url", VStr (if truthy_opt video_id
                     then "https://www.youtube.com/watch?v=" ++ get_default video_id ""
                     else "N/A"))].

(** [ScraperEngine.scrape_youtube_videos] *)
Definition scrape_youtube_videos (query : string) : M (list record) :=
  let query_formatted := PyStr.replace_char " " "+" query in
  let url := "https://www.youtube.com/results?search_query=" ++ query_formatted in
  emit (Log INFO (MsgScraping "youtube" query)) ;;
  html_content <- _make_request_with_retry world self url true ;;
  if negb (truthy_opt html_content) then ret []
  else
    let soup := BeautifulSoup dom (get_default html_content "") in
    videos <- select_with_fallback soup PLATFORM_SELECTORS.youtube_videos
                PLATFORM_SELECTORS.youtube_fallback_videos ;;
    for_each_item "youtube" (parse_youtube_item query) (firstn 10 videos) [].

(** ** ScraperEngine.scrape_all_platforms *)

(** The tasks one enabled platform contributes: one per configured
    parameter, with the default parameter list when the key is absent. *)
Definition expand_platform (platform : platform_config) : list (string * string) :=
  match p_name platform with
  | Some platform_name =>
      if String.eqb platform_name "tiktok" then
        map (pair "tiktok") (get_default (p_tags platform) ["affiliatemarketing"])
      else if String.eqb platform_name "amazon" then
        map (pair "amazon") (get_default (p_categories platform) ["electronics"])
      else if String.eqb platform_name "reddit" then
        map (pair "reddit") (get_default (p_subreddits platform) ["affiliatemarketing"])
      else if String.eqb platform_name "youtube" then
        map (pair "youtube") (get_default (p_search_queries platform) ["affiliate marketing"])
      else []
  | None => []
  end.

(** The routine a task is submitted with; [None] is the [continue] branch. *)
Definition dispatch (platform param : string) : option (M (list record)) :=
  if String.eqb platform "tiktok" then Some (scrape_tiktok_hashtags param)
  else if String.eqb platform "amazon" then Some (scrape_amazon_bestsellers param)
  else if String.eqb platform "reddit" then Some (scrape_reddit_posts param)
  else if String.eqb platform "youtube" then Some (scrape_youtube_videos param)
  else None.

(** [executor.submit(job, param)]: the pool runs the job and keeps what it
    returned or raised in the future.  The schedule is fixed here to the one
    in which a job runs to its end when it is submitted; [future.result()]
    depends on the schedule only through what the job returned or raised. *)
Definition submit (job : M (list record)) : M (exn + list record) :=
  fun s => let (r, s') := job s in (inr r, s').

(** The submission loop, [futures] being the list built so far. *)
Fixpoint submit_all (tasks : list (string * string)) (futures : list (exn + list record))
  : M (list (exn + list record)) :=
  match tasks with
  | [] => ret futures
  | (platform, param) :: rest =>
      match dispatch platform param with
      | None => submit_all rest futures
      | Some job =>
          future <- submit job ;;
          sleep 1 ;;
          submit_all rest (futures ++ [future])
      end
  end.

(** The collection loop: [future.result()] re-raises what the job raised,
    and the handler logs it. *)
Fixpoint collect (futures : list (exn + list record)) (all_data : list record)
  : M (list record) :=
  match futures with
  | [] => ret all_data
  | future :: rest =>
      match future with
      | inr result => collect rest (all_data ++ result)
      | inl e =>
          emit (Log ERROR (MsgErrorInTask e)) ;;
          collect rest all_data
      end
  end.

Definition enabled_platforms : list platform_config :=
  filter (fun p => get_default (p_enabled p) true) (platforms_config self).

Definition scraping_tasks : list (string * string) :=
  flat_map expand_platform enabled_platforms.

(** [ScraperEngine.scrape_all_platforms].  [ThreadPoolExecutor(max_workers=n)]
    raises [ValueError] when [n <= 0]. *)
Definition scrape_all_platforms (max_workers : Z) : M (list record) :=
  let pool_size := Z.min max_workers (Z.of_nat (List.length scraping_tasks)) in
  if pool_size <=? 0 then raise ValueError
  else
    futures <- submit_all scraping_tasks [] ;;
    all_data <- collect futures [] ;;
    emit (Log INFO (MsgCompleted (List.length all_data) (List.length scraping_tasks))) ;;
    ret all_data.

End Extraction.

(** [ScraperEngine.__init__] when [config] is the empty dict, which is what
    the module falls back to when [config.yaml] cannot be loaded. *)
Definition default_engine : ScraperEngine :=
  mkEngine 3 30 2 [] [].

Definition default_proxy_manager : ProxyManager :=
  ProxyManager_init false false [].

Definition initial_state (pm : ProxyManager) : State := mkState pm 0 [].

(** ** Reading a trace *)

(** Failed attempts and waits as they alternate in a trace: [Failed k] for
    the warning "Attempt k/n failed", [Waited w] for [time.sleep(w)]. *)
Inductive retry_step : Type :=
| Failed (attempt : Z)
| Waited (seconds : Z).

Definition retry_view (tr : list event) : list retry_step :=
  flat_map (fun e => match e with
                     | Log _ (MsgAttemptFailed k _ _) => [Failed k]
                     | Sleep w => [Waited w]
                     | _ => []
                     end) tr.

Definition waits_of (v : list retry_step) : list Z :=
  flat_map (fun st => match st with Waited w => [w] | Failed _ => [] end) v.

Definition failures_of (v : list retry_step) : list Z :=
  flat_map (fun st => match st with Failed k => [k] | Waited _ => [] end) v.

(** The lengths of the [time.sleep] calls of a trace, in order. *)
Definition sleeps (tr : list event) : list Z := waits_of (retry_view tr).

(** The numbers of the attempts a trace reports as failed, in order. *)
Definition failed_attempts (tr : list event) : list Z := failures_of (retry_view tr).

(** What the specification asks of a fetch whose [n] attempts all fail: the
    attempts [k = 1 .. n] fail in turn, a wait of [delay * k] follows the
    [k]-th one when [k < n], and nothing follows the last. *)
Definition step_view (delay : Z) (n k : nat) : list retry_step :=
  if (k <? n)%nat
  then [Failed (Z.of_nat k); Waited (delay * Z.of_nat k)]
  else [Failed (Z.of_nat k)].

Definition exhausted_view (delay : Z) (n : nat) : list retry_step :=
  flat_map (step_view delay n) (seq 1 n).

(** The requests and the switches of mode of a trace, in order. *)
Inductive fetch_step : Type :=
| DirectFetch (url : string)
| Escalation
| BrowserFetch (url : string).

Definition fetch_view (tr : list event) : list fetch_step :=
  flat_map (fun e => match e with
                     | RequestsGet u _ _ _ => [DirectFetch u]
                     | Log _ MsgCaptchaSwitchToBrowser => [Escalation]
                     | BrowserGoto u _ _ => [BrowserFetch u]
                     | _ => []
                     end) tr.

(** The number of times the engine switched from direct to browser mode. *)
Definition escalations (tr : list event) : nat :=
  List.length (filter (fun st => match st with Escalation => true | _ => false end)
                 (fetch_view tr)).

(** The [try] body raises from state [s] after starting one attempt, leaving
    neither a failure warning nor a wait of its own in the log. *)
Definition attempt_fails_quietly (try_body : M (option string)) (s : State) : Prop :=
  exists e s1 ev,
    try_body s = (inl e, s1) /\
    clock s1 = S (clock s) /\
    trace s1 = (trace s ++ ev)%list /\
    retry_view ev = [].

(** The cursor of the proxy manager is where [__init__] and [get_proxy] can
    leave it. *)
Definition proxy_ok (pm : ProxyManager) : Prop :=
  proxies pm = [] \/ (current_index pm < List.length (proxies pm))%nat.

(** Every fetch attempt started at a moment [t] with [t0 <= t < t0 + n]
    fails: the direct request raises (network error, timeout, non-2xx
    status) and so does the browser session. *)
Definition every_attempt_fails (world : World) (t0 n : nat) : Prop :=
  forall t, (t0 <= t < t0 + n)%nat ->
    (forall u ua p tm, exists e, requests_get world t u ua p tm = inl e) /\
    (forall u p ua, exists e, browser_page_source world t u p ua = inl e).

(** ** Sample worlds and documents *)

(** A network on which nothing answers. *)
Definition dead_world : World :=
  mkWorld (fun _ _ _ _ _ => inl (OtherError "timeout"))
          (fun _ _ _ _ => inl (OtherError "timeout"))
          (fun _ => inl (OtherError "EOF"))
          (fun _ l => hd "" l).

(** A site that answers direct requests with a challenge page and serves
    its content to a browser. *)
Definition challenge_world : World :=
  mkWorld (fun _ _ _ _ _ => inr "Please complete CAPTCHA")
          (fun _ _ _ _ => inr "<html>content</html>")
          (fun _ => inr "<html>content</html>")
          (fun _ l => hd "" l).

(** Elements given by the answers to the queries made on them. *)
Inductive sample_tag : Type :=
| SampleTag (tag_text : exn + string)
            (tag_attrs : list (string * string))
            (tag_children : list (string * sample_tag))
            (tag_following : list (string * sample_tag)).

Definition sample_text (t : sample_tag) : exn + string :=
  match t with SampleTag x _ _ _ => x end.

Definition sample_attrs (t : sample_tag) : list (string * string) :=
  match t with SampleTag _ a _ _ => a end.

Definition sample_select_one (t : sample_tag) (selector : string)
  : exn + option sample_tag :=
  match t with SampleTag _ _ c _ => inr (dict_get selector c) end.

Definition sample_find_next (t : sample_tag) (selector : string)
  : exn + option sample_tag :=
  match t with SampleTag _ _ _ f => inr (dict_get selector f) end.

(** A parser that reads every page as the document [doc], itself given by
    what each selector matches in it. *)
Definition sample_dom (doc : list (string * list sample_tag)) : Bs4 :=
  {| Soup := list (string * list sample_tag);
     Tag := sample_tag;
     BeautifulSoup := fun _ => doc;
     soup_select := fun d selector => inr (get_default (dict_get selector d) []);
     select_one := sample_select_one;
     find_next := sample_find_next;
     text := sample_text;
     attrs := sample_attrs |}.

Definition leaf (s : string) : sample_tag := SampleTag (inr s) [] [] [].

Definition link (s href : string) : sample_tag :=
  SampleTag (inr s) [("href", href)] [] [].

(** An element whose text cannot be read. *)
Definition broken : sample_tag := SampleTag (inl (OtherError "malformed")) [] [] [].

(** An Amazon product with a name and a price and no rating. *)
Definition product_without_rating : sample_tag :=
  SampleTag (inr "")
    [] [(PLATFORM_SELECTORS.amazon_product_name, leaf " Kettle ");
        (PLATFORM_SELECTORS.amazon_price, leaf "$19.99")] [].

(** An Amazon product whose name element is broken. *)
Definition product_broken : sample_tag :=
  SampleTag (inr "") [] [(PLATFORM_SELECTORS.amazon_product_name, broken)] [].

(** A Reddit post with a title and neither an upvote nor a comment count. *)
Definition post_without_counts : sample_tag :=
  SampleTag (inr "") [] [(PLATFORM_SELECTORS.reddit_title, leaf "Hello")] [].

(** YouTube videos whose title links to [href]. *)
Definition video_linking_to (href : string) : sample_tag :=
  SampleTag (inr "") [] [(PLATFORM_SELECTORS.youtube_title, link "A video" href)] [].

(** Three proxy providers. *)
Definition three_proxies : list provider :=
  [Provider (Some "http://proxy-a:8080");
   Provider (Some "http://proxy-b:8080");
   Provider (Some "http://proxy-c:8080")].

(** The cursor of a manager that rotates stays inside the provider list. *)
Definition cursor_in_range (pm : ProxyManager) : Prop :=
  (current_index pm < List.length (proxies pm))%nat.

(** ** The four platforms side by side *)

Inductive platform : Type := tiktok | amazon | reddit | youtube.

Definition platform_name (p : platform) : string :=
  match p with
  | tiktok => "tiktok"
  | amazon => "amazon"
  | reddit => "reddit"
  | youtube => "youtube"
  end.

Definition primary_selector (p : platform) : string :=
  match p with
  | tiktok => PLATFORM_SELECTORS.tiktok_hashtags
  | amazon => PLATFORM_SELECTORS.amazon_products
  | reddit => PLATFORM_SELECTORS.reddit_posts
  | youtube => PLATFORM_SELECTORS.youtube_videos
  end.

Definition fallback_selector (p : platform) : string :=
  match p with
  | tiktok => PLATFORM_SELECTORS.tiktok_fallback_hashtags
  | amazon => PLATFORM_SELECTORS.amazon_fallback_products
  | reddit => PLATFORM_SELECTORS.reddit_fallback_posts
  | youtube => PLATFORM_SELECTORS.youtube_fallback_videos
  end.

(** The fields of a platform's record that are read through a selector,
    each with its selector. *)
Definition selector_fields (p : platform) : list (string * string) :=
  match p with
  | tiktok => [("views", PLATFORM_SELECTORS.tiktok_views)]
  | amazon => [("name", PLATFORM_SELECTORS.amazon_product_name);
               ("price", PLATFORM_SELECTORS.amazon_price);
               ("rating", PLATFORM_SELECTORS.amazon_rating)]
  | reddit => [("title", PLATFORM_SELECTORS.reddit_title);
               ("upvotes", PLATFORM_SELECTORS.reddit_upvotes);
               ("comments", PLATFORM_SELECTORS.reddit_comments)]
  | youtube => [("title", PLATFORM_SELECTORS.youtube_title);
                ("views", PLATFORM_SELECTORS.youtube_views);
                ("date", PLATFORM_SELECTORS.youtube_date)]
  end.

(** The value a field takes when its selector matches nothing: ["N/A"],
    except for the two counts of a Reddit post, which become ["0"]. *)
Definition sentinel (p : platform) (key : string) : string :=
  match p with
  | reddit => if String.eqb key "title" then "N/A" else "0"
  | _ => "N/A"
  end.

Section Platforms.

Variable world : World.
Variable dom : Bs4.
Variable self : ScraperEngine.

(** The query a platform makes for a field: TikTok looks after the
    container, the others inside it. *)
Definition field_query (p : platform) (container : Tag dom) (selector : string)
  : exn + option (Tag dom) :=
  match p with
  | tiktok => find_next dom container selector
  | _ => select_one dom container selector
  end.

(** The address a platform's routine fetches for a parameter, and the first
    argument of its [try] body. *)
Definition page_url (p : platform) (param : string) : string :=
  match p with
  | tiktok => base_url_of self "tiktok" "https://www.tiktok.com/tag/" ++ param
  | amazon => base_url_of self "amazon" "https://www.amazon.com/best-sellers/" ++ param
  | reddit => base_url_of self "reddit" "https://www.reddit.com/r/" ++ param
  | youtube => "https://www.youtube.com/results?search_query="
               ++ PyStr.replace_char " " "+" param
  end.

Definition parse_item (p : platform) (param : string) : Tag dom -> exn + record :=
  match p with
  | tiktok => parse_tiktok_item dom (base_url_of self "tiktok" "https://www.tiktok.com/tag/")
  | amazon => parse_amazon_item dom param
  | reddit => parse_reddit_item dom param
  | youtube => parse_youtube_item dom param
  end.

(** The extraction loop of a platform over the containers matched. *)
Definition extract_loop (p : platform) (param : string) (containers : list (Tag dom))
  : M (list record) :=
  for_each_item dom (platform_name p) (parse_item p param)
    (match p with youtube => firstn 10 containers | _ => containers end) [].

Definition scrape (p : platform) (param : string) : M (list record) :=
  match p with
  | tiktok => scrape_tiktok_hashtags world dom self param
  | amazon => scrape_amazon_bestsellers world dom self param
  | reddit => scrape_reddit_posts world dom self param
  | youtube => scrape_youtube_videos world dom self param
  end.

(** A library call made while parsing [container] raises [e]: the text of
    the TikTok tag itself, a field query, or the text of an element found. *)
Definition item_raises (p : platform) (container : Tag dom) (e : exn) : Prop :=
  (p = tiktok /\ text dom container = inl e) \/
  exists key selector,
    In (key, selector) (selector_fields p) /\
    (field_query p container selector = inl e \/
     exists el, field_query p container selector = inr (Some el) /\ text dom el = inl e).

(** The records of the containers that parse, in order. *)
Definition parsed (parse : Tag dom -> exn + record) (items : list (Tag dom))
  : list record :=
  flat_map (fun item => match parse item with inr r => [r] | inl _ => [] end) items.

(** The link target of a video's title element, when both are there. *)
Definition title_href (video : Tag dom) : option string :=
  match select_one dom video PLATFORM_SELECTORS.youtube_title with
  | inr (Some el) => dict_get "href" (attrs dom el)
  | _ => None
  end.

End Platforms.

(** [v] is what follows the last [c] in [s], or all of [s] when [c] does not
    occur in it. *)
Definition after_last (c : ascii) (s v : string) : Prop :=
  PyStr.has_char c v = false /\ (s = v \/ exists pre, s = pre ++ String c v).

(** ** What the routines promise about their records *)

(** The keys of a platform's record, in the order of its dict literal. *)
Definition record_layout (p : platform) : list string :=
  match p with
  | tiktok => ["platform"; "type"; "name"; "views"; "url"]
  | amazon => ["platform"; "type"; "category"; "name"; "price"; "rating"]
  | reddit => ["platform"; "type"; "subreddit"; "title"; "upvotes"; "comments"]
  | youtube => ["platform"; "type"; "query"; "title"; "views"; "date"; "video_id"; "url"]
  end.

(** The value of a platform's [type] field. *)
Definition record_type (p : platform) : string :=
  match p with
  | tiktok => "hashtag"
  | amazon => "product"
  | reddit => "post"
  | youtube => "video"
  end.

(** The browser visits and the direct requests of a trace. *)
Definition browser_visits (tr : list event) : list string :=
  flat_map (fun st => match st with BrowserFetch u => [u] | _ => [] end) (fetch_view tr).

Definition direct_requests (tr : list event) : list string :=
  flat_map (fun st => match st with DirectFetch u => [u] | _ => [] end) (fetch_view tr).

(** The operator was asked to solve a challenge. *)
Definition operator_prompts (tr : list event) : nat :=
  List.length (filter (fun e => match e with OperatorPrompt => true | _ => false end) tr).

(** * Trend analyzer (src/trend_analyzer.py) *)

(** ** AFFILIATE_DB *)

Definition AFFILIATE_DB : list (string * list string) :=
  [("AI Tools", ["Jasper"; "Copy.ai"; "WriteSonic"; "Notion AI"]);
   ("Fitness", ["Bodybuilding.com"; "MyProtein"; "Gymshark"; "Rogue Fitness"]);
   ("Home Automation", ["Amazon Associates"; "SmartThings"; "Philips Hue"; "Nest"]);
   ("Pet Products", ["Chewy"; "Petco"; "Amazon Associates"; "PetSmart"]);
   ("Sustainable Living",
    ["EarthHero"; "Public Goods"; "Thrive Market"; "Avocado Green Mattress"]);
   ("Remote Work", ["FlexJobs"; "Autonomous"; "Amazon Associates"; "Udemy"]);
   ("Beauty", ["Sephora"; "Ulta"; "Fenty Beauty"; "Glossier"]);
   ("Financial Tools", ["Robinhood"; "Acorns"; "Personal Capital"; "Credit Karma"]);
   ("Digital Art", ["Skillshare"; "Domestika"; "Wacom"; "Creative Market"]);
   ("Mental Health", ["BetterHelp"; "Headspace"; "Calm"; "Talkspace"]);
   ("Gaming", ["Razer"; "Logitech"; "SteelSeries"; "G2A"]);
   ("Outdoor Gear", ["REI"; "Backcountry"; "Columbia"; "The North Face"]);
   ("Smart Home", ["Amazon Associates"; "Best Buy"; "Home Depot"; "Lowe's"]);
   ("Baby Products", ["Amazon Associates"; "Target"; "BuyBuyBaby"; "Carter's"]);
   ("Cooking", ["Sur La Table"; "Williams Sonoma"; "Blue Apron"; "HelloFresh"]);
   ("Language Learning", ["Babbel"; "Rosetta Stone"; "Duolingo"; "Preply"]);
   ("Travel Gear", ["Amazon Associates"; "Eagle Creek"; "Samsonite"; "TravelPro"]);
   ("Home Office", ["Fully"; "Herman Miller"; "Autonomous"; "Steelcase"]);
   ("Solar Products", ["Goal Zero"; "Jackery"; "Renogy"; "EcoFlow"]);
   ("AI Pet Tech", ["Petcube"; "Chewy"; "Furbo"; "Whistle"]);
   ("Wireless Earbuds", ["Amazon Associates"; "Best Buy"; "JBL"; "Bose"]);
   ("Streaming Services", ["Netflix"; "Disney+"; "Hulu"; "HBO Max"]);
   ("Plant Care", ["The Sill"; "Bloomscape"; "Amazon Associates"; "Plant Therapy"]);
   ("Eco-Friendly Beauty",
    ["Beautycounter"; "Credo Beauty"; "The Detox Market"; "ILIA Beauty"]);
   ("Smart Fitness", ["Peloton"; "Mirror"; "Echelon"; "NordicTrack"])].

(** ** Dicts as lists of items *)

(** [d[key] = v]: the value of an existing key is replaced where it is, a new
    key goes to the end. *)
Fixpoint dict_set {A : Type} (key : string) (v : A) (d : list (string * A))
  : list (string * A) :=
  match d with
  | [] => [(key, v)]
  | (k, w) :: d' =>
      if String.eqb k key then (k, v) :: d' else (k, w) :: dict_set key v d'
  end.

(** [d.update(other)] *)
Definition dict_update {A : Type} (d other : list (string * A)) : list (string * A) :=
  fold_left (fun acc kv => dict_set (fst kv) (snd kv) acc) other d.

(** ** Plugins *)

(** One entry of [plugins['affiliate_networks']]. *)
Record network_config : Type := mkNetwork {
  n_enabled : option bool;
  n_name : option string
}.

(** [config.get('plugins', {})]; a key that is absent is [None]. *)
Record plugins_config : Type := mkPlugins {
  pl_enabled : option bool;
  pl_directory : option string;
  pl_affiliate_networks : option (list network_config)
}.

(** The file system and the import machinery.
    - [path_exists path]: [os.path.exists(path)];
    - [exec_module name path]: building the module from the file and running
      it; the exception of any of the three [importlib] calls, or the
      module's [AFFILIATE_PROGRAMS], a dict like the database ([None] when
      the module has no such attribute). *)
Record FileSystem : Type := mkFileSystem {
  path_exists : string -> bool;
  exec_module : option string -> string -> exn + option (list (string * list string))
}.

(** What [_load_plugins] logs. *)
Inductive plugin_log : Type :=
| LogDirectoryMissing (plugin_dir : string)
| LogLoaded (plugin_name : option string)
| LogLoadError (plugin_name : option string) (e : exn).

(** [f"{plugin_name}"] *)
Definition format_name (plugin_name : option string) : string :=
  match plugin_name with
  | Some n => n
  | None => "None"
  end.

(** [s.endswith(c)] for a one-character [c]. *)
Fixpoint ends_with_char (c : ascii) (s : string) : bool :=
  match s with
  | EmptyString => false
  | String a EmptyString => Ascii.eqb a c
  | String _ s' => ends_with_char c s'
  end.

(** [os.path.join(a, b)] on POSIX: an absolute [b] replaces [a]; otherwise a
    separator is added unless [a] is empty or ends in one. *)
Definition os_path_join (a b : string) : string :=
  match b with
  | String "/" _ => b
  | _ =>
      match a with
      | EmptyString => b
      | _ => if ends_with_char "/" a then a ++ b else a ++ "/" ++ b
      end
  end.

(** The loop of [_load_plugins] over the configured networks: [db] is
    [self.affiliate_db] and [log] what has been logged so far. *)
Fixpoint load_networks (fs : FileSystem) (plugin_dir : string)
  (affiliate_networks : list network_config)
  (db : list (string * list string)) (log : list plugin_log)
  : list (string * list string) * list plugin_log :=
  match affiliate_networks with
  | [] => (db, log)
  | network :: rest =>
      if get_default (n_enabled network) false then
        let plugin_name := n_name network in
        let plugin_path := os_path_join plugin_dir (format_name plugin_name ++ ".py") in
        if path_exists fs plugin_path then
          match exec_module fs plugin_name plugin_path with
          | inr (Some programs) =>
              load_networks fs plugin_dir rest (dict_update db programs)
                (log ++ [LogLoaded plugin_name])
          | inr None => load_networks fs plugin_dir rest db log
          | inl e =>
              load_networks fs plugin_dir rest db (log ++ [LogLoadError plugin_name e])
          end
        else load_networks fs plugin_dir rest db log
      else load_networks fs plugin_dir rest db log
  end.

(** [TrendAnalyzer._load_plugins], from the database [db] it finds in
    [self.affiliate_db]: the database it leaves there and what it logged. *)
Definition _load_plugins (fs : FileSystem) (cfg : plugins_config)
  (db : list (string * list string))
  : list (string * list string) * list plugin_log :=
  if negb (get_default (pl_enabled cfg) false) then (db, [])
  else
    let plugin_dir := get_default (pl_directory cfg) "plugins" in
    if negb (path_exists fs plugin_dir) then (db, [LogDirectoryMissing plugin_dir])
    else load_networks fs plugin_dir (get_default (pl_affiliate_networks cfg) []) db [].

(** [self.affiliate_db] once [TrendAnalyzer.__init__] has copied
    [AFFILIATE_DB] and loaded the plugins. *)
Definition TrendAnalyzer_affiliate_db (fs : FileSystem) (cfg : plugins_config)
  : list (string * list string) :=
  fst (_load_plugins fs cfg AFFILIATE_DB).

(** The programs a configured network adds: those of its module when the
    network is enabled, its file exists and its module loads and has
    [AFFILIATE_PROGRAMS]. *)
Definition plugin_programs (fs : FileSystem) (plugin_dir : string)
  (network : network_config) : option (list (string * list string)) :=
  if get_default (n_enabled network) false then
    let plugin_path := os_path_join plugin_dir (format_name (n_name network) ++ ".py") in
    if path_exists fs plugin_path then
      match exec_module fs (n_name network) plugin_path with
      | inr (Some programs) => Some programs
      | _ => None
      end
    else None
  else None.

(** The conversion at the head of [TrendAnalyzer.fetch_google_trends], from
    the configuration's spelling of a period to the one of pytrends. *)
Definition pytrends_timeframe (timeframe : string) : string :=
  if String.eqb timeframe "6mo" || String.eqb timeframe "6-m" then "today 6-m"
  else if String.eqb timeframe "12mo" || String.eqb timeframe "12-m" then "today 12-m"
  else if String.eqb timeframe "3mo" || String.eqb timeframe "3-m" then "today 3-m"
  else "today 6-m".

(** ** Sample plugins *)

(** A plugin directory with two modules: [good.py] defines programs for one
    new niche and one built-in niche, [bad.py] raises when it is run. *)
Definition sample_fs : FileSystem :=
  mkFileSystem
    (fun path => String.eqb path "plugins"
                 || String.eqb path "plugins/good.py"
                 || String.eqb path "plugins/bad.py")
    (fun _ path =>
       if String.eqb path "plugins/good.py"
       then inr (Some [("Drones", ["DJI"]); ("Gaming", ["Steam"])])
       else inl (OtherError "SyntaxError")).

Definition sample_plugins : plugins_config :=
  mkPlugins (Some true) None
    (Some [mkNetwork (Some true) (Some "bad"); mkNetwork (Some true) (Some "good")]).

(** A site whose first two answers fail and whose third is a page. *)
Definition flaky_world : World :=
  mkWorld (fun t _ _ _ _ => if (t <? 2)%nat then inl (OtherError "503")
                            else inr "<html>content</html>")
          (fun t _ _ _ => if (t <? 2)%nat then inl (OtherError "timeout")
                          else inr "<html>content</html>")
          (fun _ => inr "<html>solved</html>")
          (fun _ l => hd "" l).

(** A site that shows a browser a challenge which the operator solves. *)
Definition gated_world : World :=
  mkWorld (fun _ _ _ _ _ => inr "Please complete CAPTCHA")
          (fun _ _ _ _ => inr "Are you a robot?")
          (fun _ => inr "<html>solved</html>")
          (fun _ l => hd "" l).

(** * Properties *)

(** ** ProxyManager.get_proxy *)

Lemma get_proxy_disabled : forall pm,
  enabled pm = false -> get_proxy pm = (inr None, pm).
Proof.
  intros pm H. unfold get_proxy. rewrite H. reflexivity.
Qed.

Lemma get_proxy_no_providers : forall pm,
  proxies pm = [] -> get_proxy pm = (inr None, pm).
Proof.
  intros pm H. unfold get_proxy. rewrite H.
  now rewrite orb_true_r.
Qed.

(** One call of a rotating manager: the provider under the cursor is
    returned and the cursor moves to the next position, wrapping around. *)
Lemma get_proxy_rotating_step : forall pm,
  enabled pm = true -> rotation pm = true -> cursor_in_range pm ->
  exists p,
    nth_error (proxies pm) (current_index pm) = Some p /\
    get_proxy pm =
      (inr (url p),
       mkProxyManager true true (proxies pm)
         ((current_index pm + 1) mod List.length (proxies pm))%nat).
Proof.
  intros pm He Hr Hc. unfold cursor_in_range in Hc.
  destruct (nth_error (proxies pm) (current_index pm)) as [p|] eqn:Hp.
  - exists p. split; [reflexivity|].
    unfold get_proxy. rewrite He, Hr, Hp.
    destruct (proxies pm); [simpl in Hc; lia|reflexivity].
  - apply nth_error_None in Hp. lia.
Qed.

Lemma after_calls_rotating : forall n pm,
  enabled pm = true -> rotation pm = true -> cursor_in_range pm ->
  after_calls n pm =
    mkProxyManager (enabled pm) (rotation pm) (proxies pm)
      ((current_index pm + n) mod List.length (proxies pm))%nat.
Proof.
  induction n as [|n IH]; intros pm He Hr Hc.
  - simpl. unfold cursor_in_range in Hc.
    rewrite Nat.add_0_r, Nat.mod_small by exact Hc. now destruct pm.
  - simpl. destruct (get_proxy_rotating_step pm He Hr Hc) as (p & _ & Hg).
    rewrite Hg. simpl.
    assert (Hlen : List.length (proxies pm) <> 0%nat)
      by (unfold cursor_in_range in Hc; lia).
    rewrite IH; simpl; try reflexivity.
    + rewrite He, Hr. f_equal.
      rewrite Nat.Div0.add_mod_idemp_l.
      f_equal. lia.
    + unfold cursor_in_range. simpl. now apply Nat.mod_upper_bound.
Qed.

Lemma get_proxy_sticky_step : forall pm,
  enabled pm = true -> rotation pm = false -> proxies pm <> [] ->
  exists p, nth_error (proxies pm) 0 = Some p /\ get_proxy pm = (inr (url p), pm).
Proof.
  intros pm He Hr Hne. unfold get_proxy. rewrite He, Hr.
  destruct (proxies pm) as [|p ps]; [contradiction|].
  exists p. split; reflexivity.
Qed.

Lemma after_calls_sticky : forall n pm,
  enabled pm = true -> rotation pm = false -> proxies pm <> [] ->
  after_calls n pm = pm.
Proof.
  induction n as [|n IH]; intros pm He Hr Hne; [reflexivity|].
  simpl. destruct (get_proxy_sticky_step pm He Hr Hne) as (p & _ & Hg).
  rewrite Hg. simpl. now apply IH.
Qed.

(** C7, as amended.  When the proxy feature is switched off ([enabled] is
    false) or no provider is configured, [get_proxy] returns [None] and
    leaves the manager as it was. *)
Theorem get_proxy_none_when_off_or_empty : forall pm,
  enabled pm = false \/ proxies pm = [] ->
  get_proxy pm = (inr None, pm).
Proof.
  intros pm [H|H]; [now apply get_proxy_disabled | now apply get_proxy_no_providers].
Qed.

Lemma get_proxy_none_when_off_or_empty_witness :
  get_proxy (ProxyManager_init false true three_proxies)
  = (inr None, ProxyManager_init false true three_proxies).
Proof.
  apply (get_proxy_none_when_off_or_empty (ProxyManager_init false true three_proxies)).
  left. reflexivity.
Defined.

(** C7 as stated fails: with rotation disabled, the feature enabled and
    providers configured, [get_proxy] returns the first provider's URL. *)
Lemma rotation_disabled_still_returns_proxy :
  ~ (forall pm, rotation pm = false \/ proxies pm = [] ->
                fst (get_proxy pm) = inr None).
Proof.
  intro H.
  specialize (H (ProxyManager_init true false three_proxies) (or_introl eq_refl)).
  discriminate H.
Qed.

(** C8, as amended.  For a manager whose proxy feature is enabled and whose
    provider list is not empty: with rotation, the call that follows [n]
    earlier calls returns the URL of the provider at position
    [(cursor + n) mod size] and leaves the cursor at [(cursor + n + 1) mod
    size]; without rotation, every call returns the URL of the first provider
    and the manager does not change. *)
Theorem get_proxy_round_robin_when_enabled : forall pm n,
  enabled pm = true -> proxies pm <> [] -> cursor_in_range pm ->
  if rotation pm then
    exists p,
      nth_error (proxies pm)
        ((current_index pm + n) mod List.length (proxies pm))%nat = Some p /\
      nth_call n pm = inr (url p) /\
      current_index (after_calls (S n) pm)
      = ((current_index pm + n + 1) mod List.length (proxies pm))%nat /\
      current_index (after_calls (S n) pm)
      = ((current_index (after_calls n pm) + 1) mod List.length (proxies pm))%nat
  else
    exists p,
      nth_error (proxies pm) 0 = Some p /\
      nth_call n pm = inr (url p) /\
      after_calls (S n) pm = pm.
Proof.
  intros pm n He Hne Hc.
  assert (Hlen : List.length (proxies pm) <> 0%nat)
    by (unfold cursor_in_range in Hc; lia).
  destruct (rotation pm) eqn:Hr.
  - pose proof (after_calls_rotating n pm He Hr Hc) as Hn.
    pose proof (after_calls_rotating (S n) pm He Hr Hc) as HSn.
    set (pm' := after_calls n pm) in *.
    assert (Hc' : cursor_in_range pm').
    { unfold cursor_in_range. rewrite Hn. simpl. now apply Nat.mod_upper_bound. }
    assert (He' : enabled pm' = true) by (rewrite Hn; exact He).
    assert (Hr' : rotation pm' = true) by (rewrite Hn; exact Hr).
    destruct (get_proxy_rotating_step pm' He' Hr' Hc') as (p & Hp & Hg).
    exists p. repeat split.
    + rewrite Hn in Hp. exact Hp.
    + unfold nth_call. fold pm'. now rewrite Hg.
    + rewrite HSn. simpl. f_equal. lia.
    + rewrite HSn, Hn. simpl.
      rewrite Nat.Div0.add_mod_idemp_l. f_equal. lia.
  - destruct (get_proxy_sticky_step pm He Hr Hne) as (p & Hp & Hg).
    exists p. repeat split.
    + exact Hp.
    + unfold nth_call. rewrite after_calls_sticky by assumption. now rewrite Hg.
    + now apply after_calls_sticky.
Qed.

Lemma get_proxy_round_robin_when_enabled_witness :
  exists p,
    nth_error three_proxies 1 = Some p /\
    nth_call 4 (ProxyManager_init true true three_proxies) = inr (url p) /\
    current_index (after_calls 5 (ProxyManager_init true true three_proxies)) = 2%nat /\
    current_index (after_calls 5 (ProxyManager_init true true three_proxies)) = 2%nat.
Proof.
  apply (get_proxy_round_robin_when_enabled
           (ProxyManager_init true true three_proxies) 4).
  - reflexivity.
  - discriminate.
  - unfold cursor_in_range. simpl. lia.
Defined.

(** C8 as stated fails: a manager with rotation enabled and providers
    configured, but the proxy feature itself off, returns no endpoint. *)
Lemma rotation_without_enabled_returns_none :
  rotation (ProxyManager_init false true three_proxies) = true /\
  proxies (ProxyManager_init false true three_proxies) <> [] /\
  nth_call 0 (ProxyManager_init false true three_proxies) = inr None /\
  nth_call 1 (ProxyManager_init false true three_proxies) = inr None /\
  ~ (forall pm n, proxies pm <> [] -> rotation pm = true -> cursor_in_range pm ->
       exists p,
         nth_error (proxies pm)
           ((current_index pm + n) mod List.length (proxies pm))%nat = Some p /\
         nth_call n pm = inr (url p)).
Proof.
  repeat split; try discriminate.
  intro H.
  destruct (H (ProxyManager_init false true three_proxies) 0%nat) as (p & Hp & Hc).
  - discriminate.
  - reflexivity.
  - unfold cursor_in_range. simpl. lia.
  - simpl in Hp. injection Hp as <-. discriminate Hc.
Qed.

(** ** Strings: the piece after the last separator *)

Lemma split_not_nil : forall sep s, PyStr.split sep s <> [].
Proof.
  intros sep s. destruct s as [|c s]; simpl; [discriminate|].
  destruct (Ascii.eqb c sep); [discriminate|].
  destruct (PyStr.split sep s); discriminate.
Qed.

Lemma split_without_sep : forall sep s,
  PyStr.has_char sep s = false -> PyStr.split sep s = [s].
Proof.
  intros sep s. induction s as [|c s IH]; simpl; intro H; [reflexivity|].
  apply orb_false_elim in H. destruct H as [Hc Hs].
  rewrite Hc, (IH Hs). reflexivity.
Qed.

Lemma split_app_sep : forall sep pre suf,
  PyStr.split sep (pre ++ String sep suf)
  = (PyStr.split sep pre ++ PyStr.split sep suf)%list.
Proof.
  intros sep pre suf. induction pre as [|c pre IH]; simpl.
  - now rewrite Ascii.eqb_refl.
  - destruct (Ascii.eqb c sep); rewrite IH; [reflexivity|].
    pose proof (split_not_nil sep pre) as Hne.
    destruct (PyStr.split sep pre); [contradiction|reflexivity].
Qed.

Lemma last_app_not_nil : forall (A : Type) (l1 l2 : list A) (d : A),
  l2 <> [] -> List.last (l1 ++ l2)%list d = List.last l2 d.
Proof.
  intros A l1 l2 d Hne. induction l1 as [|a l1 IH]; [reflexivity|].
  simpl. destruct (l1 ++ l2)%list eqn:E; [|exact IH].
  apply app_eq_nil in E. destruct E as [_ E]. contradiction.
Qed.

(** Every string ends in a piece free of [sep] that either is the whole
    string or follows an occurrence of [sep]. *)
Lemma last_sep_decomposition : forall sep s,
  PyStr.has_char sep s = false \/
  exists pre suf, s = pre ++ String sep suf /\ PyStr.has_char sep suf = false.
Proof.
  intros sep s. induction s as [|c s IH]; [now left|].
  destruct IH as [Hno | (pre & suf & -> & Hsuf)].
  - simpl. destruct (Ascii.eqb c sep) eqn:Hc.
    + right. exists EmptyString, s. apply Ascii.eqb_eq in Hc. subst c.
      split; [reflexivity|assumption].
    + left. now rewrite Hno.
  - right. exists (String c pre), suf. split; [reflexivity|assumption].
Qed.

(** [s.split(sep)[-1]] is what follows the last [sep] of [s], and [s] itself
    when [s] has no [sep]. *)
Lemma last_piece_after_last : forall sep s,
  after_last sep s (PyStr.last_piece (PyStr.split sep s)).
Proof.
  intros sep s. unfold after_last, PyStr.last_piece.
  destruct (last_sep_decomposition sep s) as [Hno | (pre & suf & -> & Hsuf)].
  - rewrite (split_without_sep _ _ Hno). simpl. split; [assumption|now left].
  - rewrite split_app_sep, last_app_not_nil by apply split_not_nil.
    rewrite (split_without_sep _ _ Hsuf). simpl.
    split; [assumption|]. right. now exists pre.
Qed.

Lemma has_char_app : forall c s1 s2,
  PyStr.has_char c (s1 ++ s2) = PyStr.has_char c s1 || PyStr.has_char c s2.
Proof.
  intros c s1 s2. induction s1 as [|a s1 IH]; simpl; [reflexivity|].
  now rewrite IH, orb_assoc.
Qed.

Lemma string_app_inv_no_char : forall c p1 p2 v1 v2,
  PyStr.has_char c v1 = false -> PyStr.has_char c v2 = false ->
  p1 ++ String c v1 = p2 ++ String c v2 -> v1 = v2.
Proof.
  intros c p1. induction p1 as [|a p1 IH]; intros p2 v1 v2 H1 H2 E.
  - destruct p2 as [|b p2]; simpl in E.
    + now injection E.
    + injection E as _ E. subst v1.
      rewrite has_char_app in H1. simpl in H1.
      rewrite Ascii.eqb_refl in H1. simpl in H1.
      now rewrite orb_true_r in H1.
  - destruct p2 as [|b p2]; simpl in E.
    + injection E as _ E. subst v2.
      rewrite has_char_app in H2. simpl in H2.
      rewrite Ascii.eqb_refl in H2. simpl in H2.
      now rewrite orb_true_r in H2.
    + injection E as _ E. now apply (IH p2).
Qed.

(** [after_last] names one string. *)
Lemma after_last_unique : forall c s v1 v2,
  after_last c s v1 -> after_last c s v2 -> v1 = v2.
Proof.
  intros c s v1 v2 [H1 [E1 | (p1 & E1)]] [H2 [E2 | (p2 & E2)]].
  - congruence.
  - subst v1. rewrite E2, has_char_app in H1. simpl in H1.
    rewrite Ascii.eqb_refl in H1. simpl in H1. now rewrite orb_true_r in H1.
  - subst v2. rewrite E1, has_char_app in H2. simpl in H2.
    rewrite Ascii.eqb_refl in H2. simpl in H2. now rewrite orb_true_r in H2.
  - rewrite E1 in E2. now apply (string_app_inv_no_char c p1 p2).
Qed.

(** ** Records: fields that are missing, and the video identifier *)

(** C10, as amended.  In a YouTube record, when the title element is there
    and has an [href], [video_id] is what follows the last ['='] of the
    [href] (the whole [href] when it has no ['=']), and [url] is the watch
    address followed by that identifier when the identifier is not empty and
    ["N/A"] when it is empty; when the title element is absent or has no
    [href], [video_id] is [None] and [url] is ["N/A"]. *)
Theorem youtube_video_id_and_url : forall dom query video r,
  parse_youtube_item dom query video = inr r ->
  match title_href dom video with
  | Some href =>
      exists video_id,
        after_last "=" href video_id /\
        video_id = PyStr.last_piece (PyStr.split "=" href) /\
        dict_get "video_id" r = Some (VStr video_id) /\
        dict_get "url" r =
          Some (VStr (if PyStr.truthy video_id
                      then "https://www.youtube.com/watch?v=" ++ video_id
                      else "N/A"))
  | None =>
      dict_get "video_id" r = Some VNone /\
      dict_get "url" r = Some (VStr "N/A")
  end.
Proof.
  intros dom query video r H.
  unfold parse_youtube_item in H. unfold title_href.
  destruct (select_one dom video PLATFORM_SELECTORS.youtube_title) as [e|title_element];
    [discriminate H|].
  simpl in H.
  destruct (select_one dom video PLATFORM_SELECTORS.youtube_views) as [e|views_element];
    [discriminate H|].
  simpl in H.
  destruct (select_one dom video PLATFORM_SELECTORS.youtube_date) as [e|date_element];
    [discriminate H|].
  simpl in H.
  destruct (text_or dom title_element "N/A") as [e|title]; [discriminate H|].
  simpl in H.
  destruct (text_or dom views_element "N/A") as [e|views]; [discriminate H|].
  simpl in H.
  destruct (text_or dom date_element "N/A") as [e|date]; [discriminate H|].
  simpl in H. injection H as <-.
  destruct title_element as [el|]; simpl.
  - destruct (dict_get "href" (attrs dom el)) as [href|]; simpl.
    + exists (PyStr.last_piece (PyStr.split "=" href)).
      split; [apply last_piece_after_last|].
      split; [reflexivity|]. split; reflexivity.
    + split; reflexivity.
  - split; reflexivity.
Qed.

Lemma youtube_video_id_and_url_witness :
  exists video_id,
    after_last "=" "/watch?v=abc123" video_id /\
    video_id = PyStr.last_piece (PyStr.split "=" "/watch?v=abc123") /\
    dict_get "video_id"
      [("platform", VStr "youtube"); ("type", VStr "video"); ("query", VStr "cats");
       ("title", VStr "A video"); ("views", VStr "N/A"); ("date", VStr "N/A");
       ("video_id", VStr "abc123");
       ("url", VStr "https://www.youtube.com/watch?v=abc123")]
    = Some (VStr video_id) /\
    dict_get "url"
      [("platform", VStr "youtube"); ("type", VStr "video"); ("query", VStr "cats");
       ("title", VStr "A video"); ("views", VStr "N/A"); ("date", VStr "N/A");
       ("video_id", VStr "abc123");
       ("url", VStr "https://www.youtube.com/watch?v=abc123")]
    = Some (VStr (if PyStr.truthy video_id
                  then "https://www.youtube.com/watch?v=" ++ video_id
                  else "N/A")).
Proof.
  apply (youtube_video_id_and_url (sample_dom []) "cats"
           (video_linking_to "/watch?v=abc123")).
  reflexivity.
Defined.

(** C10 as stated fails: a title whose [href] ends in ['='] has an [href],
    yet the record's [url] is ["N/A"], not the watch address followed by the
    (empty) identifier. *)
Lemma href_ending_in_equals_sign_has_no_url :
  title_href (sample_dom []) (video_linking_to "/watch?v=") = Some "/watch?v=" /\
  exists r,
    parse_youtube_item (sample_dom []) "cats" (video_linking_to "/watch?v=") = inr r /\
    dict_get "video_id" r = Some (VStr "") /\
    dict_get "url" r = Some (VStr "N/A") /\
    dict_get "url" r <> Some (VStr ("https://www.youtube.com/watch?v=" ++ "")).
Proof.
  split; [reflexivity|].
  eexists. split; [reflexivity|].
  split; [reflexivity|]. split; [reflexivity|]. discriminate.
Qed.

(** Blame a failed parse on the query or the text of the field [k]. *)
Ltac blame_field k sl :=
  right; exists k, sl; split;
  [ simpl; tauto
  | simpl; first [ left; solve [eassumption | reflexivity]
                 | right; eexists; split; solve [eassumption | reflexivity] ] ].

(** Run a [try] body: split on what each query and each text answers, and
    close every branch that raises with [blame]. *)
Ltac run_try_body blame :=
  repeat match goal with
         | |- context [select_one ?d ?c ?sl] =>
             let E := fresh "Eq" in
             destruct (select_one d c sl) as [?|[?|]] eqn:E; simpl;
             [ right; eexists; split; [reflexivity | solve [blame]] | | ]
         | |- context [find_next ?d ?c ?sl] =>
             let E := fresh "Eq" in
             destruct (find_next d c sl) as [?|[?|]] eqn:E; simpl;
             [ right; eexists; split; [reflexivity | solve [blame]] | | ]
         | |- context [text ?d ?el] =>
             let E := fresh "Et" in
             destruct (text d el) as [?|?] eqn:E; simpl;
             [ right; eexists; split; [reflexivity | solve [blame]] | ]
         end.

Ltac blame_amazon :=
  first [ blame_field "name" PLATFORM_SELECTORS.amazon_product_name
        | blame_field "price" PLATFORM_SELECTORS.amazon_price
        | blame_field "rating" PLATFORM_SELECTORS.amazon_rating ].

Ltac blame_reddit :=
  first [ blame_field "title" PLATFORM_SELECTORS.reddit_title
        | blame_field "upvotes" PLATFORM_SELECTORS.reddit_upvotes
        | blame_field "comments" PLATFORM_SELECTORS.reddit_comments ].

Ltac blame_youtube :=
  first [ blame_field "title" PLATFORM_SELECTORS.youtube_title
        | blame_field "views" PLATFORM_SELECTORS.youtube_views
        | blame_field "date" PLATFORM_SELECTORS.youtube_date ].

Ltac blame_tiktok :=
  first [ left; split; [reflexivity | solve [eassumption | reflexivity]]
        | blame_field "views" PLATFORM_SELECTORS.tiktok_views ].

(** C6, as amended.  For every platform and every matched container, a field
    whose selector matches nothing is present in the record with its
    sentinel: ["N/A"], except that a Reddit post's [upvotes] and [comments]
    become ["0"].  The record is emitted; the container is dropped only when
    a library call made on it raises. *)
Theorem missing_field_gets_sentinel :
  forall dom self p param container key selector,
  In (key, selector) (selector_fields p) ->
  field_query dom p container selector = inr None ->
  (exists r, parse_item dom self p param container = inr r /\
             dict_get key r = Some (VStr (sentinel p key)))
  \/ (exists e, parse_item dom self p param container = inl e /\
                item_raises dom p container e).
Proof.
  intros dom self p param container key selector Hin Hq.
  destruct p; simpl in Hin, Hq;
    repeat (destruct Hin as [Hin|Hin]; [injection Hin as <- <- | ]);
    try contradiction;
    unfold parse_item, item_raises, parse_tiktok_item, parse_amazon_item,
      parse_reddit_item, parse_youtube_item;
    rewrite ?Hq; simpl.
  - run_try_body blame_tiktok.
    left. eexists. split; reflexivity.
  - run_try_body blame_amazon; left; eexists; split; reflexivity.
  - run_try_body blame_amazon; left; eexists; split; reflexivity.
  - run_try_body blame_amazon; left; eexists; split; reflexivity.
  - run_try_body blame_reddit; left; eexists; split; reflexivity.
  - run_try_body blame_reddit; left; eexists; split; reflexivity.
  - run_try_body blame_reddit; left; eexists; split; reflexivity.
  - run_try_body blame_youtube; left; eexists; split; reflexivity.
  - run_try_body blame_youtube; left; eexists; split; reflexivity.
  - run_try_body blame_youtube; left; eexists; split; reflexivity.
Qed.

Lemma missing_field_gets_sentinel_witness :
  (exists r, parse_item (sample_dom []) default_engine amazon "electronics"
               product_without_rating = inr r /\
             dict_get "rating" r = Some (VStr (sentinel amazon "rating")))
  \/ (exists e, parse_item (sample_dom []) default_engine amazon "electronics"
                  product_without_rating = inl e /\
                item_raises (sample_dom []) amazon product_without_rating e).
Proof.
  apply (missing_field_gets_sentinel (sample_dom []) default_engine amazon
           "electronics" product_without_rating "rating"
           PLATFORM_SELECTORS.amazon_rating).
  - simpl. tauto.
  - reflexivity.
Defined.

(** The Amazon product without a rating element, parsed. *)
Example amazon_without_rating_record :
  parse_amazon_item (sample_dom []) "electronics" product_without_rating
  = inr [("platform", VStr "amazon"); ("type", VStr "product");
         ("category", VStr "electronics"); ("name", VStr "Kettle");
         ("price", VStr "$19.99"); ("rating", VStr "N/A")].
Proof. reflexivity. Qed.

(** C6 as stated fails: a Reddit post whose upvote and comment selectors
    match nothing gets ["0"] in both fields, not ["N/A"]. *)
Lemma reddit_missing_counts_are_zero :
  select_one (sample_dom []) post_without_counts PLATFORM_SELECTORS.reddit_upvotes
    = inr None /\
  select_one (sample_dom []) post_without_counts PLATFORM_SELECTORS.reddit_comments
    = inr None /\
  exists r,
    parse_reddit_item (sample_dom []) "affiliatemarketing" post_without_counts = inr r /\
    dict_get "upvotes" r = Some (VStr "0") /\
    dict_get "comments" r = Some (VStr "0") /\
    dict_get "upvotes" r <> Some (VStr "N/A") /\
    dict_get "comments" r <> Some (VStr "N/A").
Proof.
  split; [reflexivity|]. split; [reflexivity|].
  eexists. split; [reflexivity|].
  repeat split; try reflexivity; discriminate.
Qed.

(** ** The extraction loop *)

Lemma parsed_length : forall dom parse items,
  (List.length (parsed dom parse items) <= List.length items)%nat.
Proof.
  intros dom parse items. induction items as [|a l IH]; simpl; [lia|].
  destruct (parse a); simpl; lia.
Qed.

Lemma for_each_item_spec : forall dom platform parse items data s,
  exists s',
    for_each_item dom platform parse items data s
      = (inr (data ++ parsed dom parse items)%list, s') /\
    proxy_manager s' = proxy_manager s /\
    clock s' = clock s /\
    exists warnings,
      trace s' = (trace s ++ warnings)%list /\
      (List.length warnings + List.length (parsed dom parse items)
       = List.length items)%nat.
Proof.
  intros dom platform parse items.
  induction items as [|item rest IH]; intros data s.
  - exists s. simpl. unfold ret. rewrite !app_nil_r.
    repeat split; try reflexivity. exists []. now rewrite app_nil_r.
  - cbn [for_each_item parsed flat_map].
    destruct (parse item) as [e|r] eqn:E.
    + unfold bind at 1, emit.
      destruct (IH data (mkState (proxy_manager s) (clock s)
                           (trace s ++ [Log WARNING (MsgErrorParsing platform e)])))
        as (s' & Hrun & Hpm & Hck & warnings & Htr & Hlen).
      exists s'. fold (parsed dom parse rest). rewrite Hrun.
      repeat split; try assumption.
      exists (Log WARNING (MsgErrorParsing platform e) :: warnings).
      split.
      * rewrite Htr. simpl. now rewrite <- app_assoc.
      * simpl. rewrite Hlen. reflexivity.
    + destruct (IH (data ++ [r])%list s)
        as (s' & Hrun & Hpm & Hck & warnings & Htr & Hlen).
      exists s'. fold (parsed dom parse rest).
      rewrite Hrun, <- app_assoc. simpl.
      repeat split; try assumption.
      exists warnings. split; [assumption|]. rewrite <- Hlen. lia.
Qed.

Lemma parsed_app : forall dom parse l1 l2,
  parsed dom parse (l1 ++ l2)
  = (parsed dom parse l1 ++ parsed dom parse l2)%list.
Proof.
  intros. unfold parsed. apply flat_map_app.
Qed.

(** C4.  In the extraction loop of every platform, a container whose parsing
    raises is skipped: the loop goes on, returns the records of the
    containers before it followed by those of the containers after it, and
    touches nothing but the log. *)
Theorem failing_item_is_skipped :
  forall dom platform parse before item after e s,
  parse item = inl e ->
  exists s',
    for_each_item dom platform parse (before ++ item :: after) [] s
      = (inr (parsed dom parse before ++ parsed dom parse after)%list, s') /\
    proxy_manager s' = proxy_manager s /\
    clock s' = clock s.
Proof.
  intros dom platform parse before item after e s H.
  destruct (for_each_item_spec dom platform parse (before ++ item :: after) [] s)
    as (s' & Hrun & Hpm & Hck & _).
  exists s'. split; [|split; assumption].
  rewrite Hrun. simpl. rewrite parsed_app.
  unfold parsed at 2. simpl. rewrite H. reflexivity.
Qed.

Lemma failing_item_is_skipped_witness :
  exists s',
    for_each_item (sample_dom []) "amazon"
      (parse_amazon_item (sample_dom []) "electronics")
      ([product_without_rating] ++ product_broken :: [product_without_rating])
      [] (initial_state default_proxy_manager)
    = (inr (parsed (sample_dom []) (parse_amazon_item (sample_dom []) "electronics")
              [product_without_rating]
            ++ parsed (sample_dom []) (parse_amazon_item (sample_dom []) "electronics")
                 [product_without_rating])%list, s') /\
    proxy_manager s' = proxy_manager (initial_state default_proxy_manager) /\
    clock s' = clock (initial_state default_proxy_manager).
Proof.
  apply (failing_item_is_skipped (sample_dom []) "amazon"
           (parse_amazon_item (sample_dom []) "electronics")
           [product_without_rating] product_broken [product_without_rating]
           (OtherError "malformed")).
  reflexivity.
Defined.

(** The same batch, run: the broken product leaves a warning in the log and
    the products around it give their records. *)
Example amazon_batch_with_broken_product :
  for_each_item (sample_dom []) "amazon"
    (parse_amazon_item (sample_dom []) "electronics")
    [product_without_rating; product_broken; product_without_rating]
    [] (initial_state default_proxy_manager)
  = (inr [[("platform", VStr "amazon"); ("type", VStr "product");
           ("category", VStr "electronics"); ("name", VStr "Kettle");
           ("price", VStr "$19.99"); ("rating", VStr "N/A")];
          [("platform", VStr "amazon"); ("type", VStr "product");
           ("category", VStr "electronics"); ("name", VStr "Kettle");
           ("price", VStr "$19.99"); ("rating", VStr "N/A")]],
     mkState default_proxy_manager 0
       [Log WARNING (MsgErrorParsing "amazon" (OtherError "malformed"))]).
Proof. reflexivity. Qed.

(** ** The fallback selector *)

(** The four routines have one shape. *)
Lemma scrape_unfold : forall world dom self p param,
  scrape world dom self p param
  = (emit (Log INFO (MsgScraping (platform_name p) param)) ;;
     html_content <- _make_request_with_retry world self (page_url self p param) true ;;
     if negb (truthy_opt html_content) then ret []
     else
       containers <- select_with_fallback dom
                       (BeautifulSoup dom (get_default html_content ""))
                       (primary_selector p) (fallback_selector p) ;;
       extract_loop dom self p param containers).
Proof.
  intros world dom self p param. destruct p; reflexivity.
Qed.

(** C5.  For each of the four platforms: when the page was fetched and the
    primary container selector matches nothing in it, the routine applies
    the fallback container selector to the same document and extracts from
    what that selector matches. *)
Theorem fallback_selector_is_applied :
  forall world dom self p param s html s1,
  _make_request_with_retry world self (page_url self p param) true
    (snd (emit (Log INFO (MsgScraping (platform_name p) param)) s))
    = (inr (Some html), s1) ->
  PyStr.truthy html = true ->
  soup_select dom (BeautifulSoup dom html) (primary_selector p) = inr [] ->
  scrape world dom self p param s
  = (emit (Log INFO MsgFallbackSelector) ;;
     containers <- lift (soup_select dom (BeautifulSoup dom html) (fallback_selector p)) ;;
     extract_loop dom self p param containers) s1.
Proof.
  intros world dom self p param s html s1 Hfetch Htruthy Hprimary.
  rewrite scrape_unfold.
  set (announce := Log INFO (MsgScraping (platform_name p) param)) in *.
  assert (Hemit : emit announce s = (inr tt, snd (emit announce s))) by reflexivity.
  unfold bind at 1. rewrite Hemit.
  unfold bind at 1. rewrite Hfetch.
  cbn [truthy_opt get_default]. rewrite Htruthy. cbn [negb].
  unfold select_with_fallback.
  unfold bind at 1. unfold lift at 1. rewrite Hprimary.
  reflexivity.
Qed.

Lemma fallback_selector_is_applied_witness :
  scrape challenge_world
    (sample_dom [(PLATFORM_SELECTORS.amazon_fallback_products, [product_without_rating])])
    default_engine amazon "electronics" (initial_state default_proxy_manager)
  = (emit (Log INFO MsgFallbackSelector) ;;
     containers <-
       lift (soup_select
               (sample_dom [(PLATFORM_SELECTORS.amazon_fallback_products,
                             [product_without_rating])])
               [(PLATFORM_SELECTORS.amazon_fallback_products, [product_without_rating])]
               (fallback_selector amazon)) ;;
     extract_loop
       (sample_dom [(PLATFORM_SELECTORS.amazon_fallback_products,
                     [product_without_rating])])
       default_engine amazon "electronics" containers)
    (snd (_make_request_with_retry challenge_world default_engine
            (page_url default_engine amazon "electronics") true
            (snd (emit (Log INFO (MsgScraping (platform_name amazon) "electronics"))
                    (initial_state default_proxy_manager))))).
Proof.
  apply (fallback_selector_is_applied challenge_world
           (sample_dom [(PLATFORM_SELECTORS.amazon_fallback_products,
                         [product_without_rating])])
           default_engine amazon "electronics"
           (initial_state default_proxy_manager) "<html>content</html>").
  - vm_compute. reflexivity.
  - reflexivity.
  - reflexivity.
Defined.

(** The fallback at work: the primary selector matches nothing, the fallback
    matches one product, and its record is returned. *)
Example amazon_fallback_gives_record :
  fst (scrape_amazon_bestsellers challenge_world
         (sample_dom [(PLATFORM_SELECTORS.amazon_fallback_products,
                       [product_without_rating])])
         default_engine "electronics" (initial_state default_proxy_manager))
  = inr [[("platform", VStr "amazon"); ("type", VStr "product");
          ("category", VStr "electronics"); ("name", VStr "Kettle");
          ("price", VStr "$19.99"); ("rating", VStr "N/A")]].
Proof. vm_compute. reflexivity. Qed.

(** ** The cap on YouTube records *)

Lemma bind_result_cases {A B : Type} (m : M A) (f : A -> M B) (s : State) :
  (exists e s', m s = (inl e, s') /\ bind m f s = (inl e, s')) \/
  (exists a s', m s = (inr a, s') /\ bind m f s = f a s').
Proof.
  unfold bind.
  destruct (m s) as [[e|a] s'].
  - left. now exists e, s'.
  - right. now exists a, s'.
Qed.

(** C9.  Whatever the page and the selectors give, [scrape_youtube_videos]
    returns at most 10 records. *)
Theorem youtube_returns_at_most_ten : forall world dom self query s,
  match fst (scrape_youtube_videos world dom self query s) with
  | inr data => (List.length data <= 10)%nat
  | inl _ => True
  end.
Proof.
  intros world dom self query s.
  change (scrape_youtube_videos world dom self query)
    with (scrape world dom self youtube query).
  rewrite scrape_unfold.
  destruct (bind_result_cases
              (emit (Log INFO (MsgScraping (platform_name youtube) query)))
              (fun _ =>
                 html_content <- _make_request_with_retry world self
                                   (page_url self youtube query) true ;;
                 if negb (truthy_opt html_content) then ret []
                 else
                   containers <- select_with_fallback dom
                                   (BeautifulSoup dom (get_default html_content ""))
                                   (primary_selector youtube) (fallback_selector youtube) ;;
                   extract_loop dom self youtube query containers) s)
    as [(e & s' & _ & ->) | (u & s' & _ & ->)]; [exact I|].
  match goal with
  | |- context [bind ?m ?f s'] =>
      destruct (bind_result_cases m f s')
        as [(e & s1 & _ & ->) | (html & s1 & _ & ->)]; [exact I|]
  end.
  destruct (negb (truthy_opt html)); [simpl; lia|].
  match goal with
  | |- context [bind ?m ?f s1] =>
      destruct (bind_result_cases m f s1)
        as [(e & s2 & _ & ->) | (containers & s2 & _ & ->)]; [exact I|]
  end.
  unfold extract_loop.
  destruct (for_each_item_spec dom (platform_name youtube)
              (parse_item dom self youtube query) (firstn 10 containers) [] s2)
    as (s3 & -> & _).
  cbn [fst app].
  etransitivity; [apply parsed_length|].
  rewrite length_firstn. lia.
Qed.

(** Fifty video containers in the page: ten records. *)
Example youtube_fifty_videos_give_ten :
  match fst (scrape_youtube_videos challenge_world
               (sample_dom [(PLATFORM_SELECTORS.youtube_videos,
                             repeat (video_linking_to "/watch?v=abc123") 50)])
               default_engine "affiliate marketing"
               (initial_state default_proxy_manager)) with
  | inr data => List.length data = 10%nat
  | inl _ => False
  end.
Proof. vm_compute. reflexivity. Qed.

(** ** The retry loop: exhaustion *)

Lemma bind_emit {A : Type} (e : event) (k : M A) (s : State) :
  bind (emit e) (fun _ => k) s
  = k (mkState (proxy_manager s) (clock s) (trace s ++ [e])).
Proof. reflexivity. Qed.

Lemma bind_sleep {A : Type} (w : Z) (k : M A) (s : State) :
  0 <= w ->
  bind (sleep w) (fun _ => k) s
  = k (mkState (proxy_manager s) (clock s) (trace s ++ [Sleep w])).
Proof.
  intro Hw. unfold sleep.
  destruct (Z.ltb_spec w 0) as [Hneg|_]; [lia|reflexivity].
Qed.

Lemma retry_view_app : forall a b,
  retry_view (a ++ b) = (retry_view a ++ retry_view b)%list.
Proof. intros. apply flat_map_app. Qed.

Lemma waits_of_app : forall a b, waits_of (a ++ b) = (waits_of a ++ waits_of b)%list.
Proof. intros. apply flat_map_app. Qed.

Lemma failures_of_app : forall a b,
  failures_of (a ++ b) = (failures_of a ++ failures_of b)%list.
Proof. intros. apply flat_map_app. Qed.

(** The waits of an exhausted fetch are [delay * 1, ..., delay * (n - 1)]. *)
Lemma waits_of_steps : forall d n m a,
  (a + m = S n)%nat ->
  waits_of (flat_map (step_view d n) (seq a m))
  = map (fun k => d * Z.of_nat k) (seq a (m - 1)).
Proof.
  intros d n m. induction m as [|m IH]; intros a Ham; [reflexivity|].
  cbn [seq flat_map]. rewrite waits_of_app, IH by lia.
  unfold step_view. destruct (Nat.ltb_spec a n) as [Hlt|Hge].
  - destruct m as [|m]; [lia|]. simpl. now rewrite Nat.sub_0_r.
  - assert (m = 0%nat) by lia. subst m. reflexivity.
Qed.

(** Its failed attempts are numbered [1, ..., n]. *)
Lemma failures_of_steps : forall d n m a,
  failures_of (flat_map (step_view d n) (seq a m)) = map Z.of_nat (seq a m).
Proof.
  intros d n m. induction m as [|m IH]; intro a; [reflexivity|].
  cbn [seq flat_map map]. rewrite failures_of_app, IH.
  unfold step_view. destruct (a <? n)%nat; reflexivity.
Qed.

(** When every attempt left fails, the loop makes them all, waits in
    between as the view says, and returns [None]. *)
Lemma retry_loop_exhausts : forall self url try_body,
  0 <= delay self ->
  0 <= max_retries self ->
  forall m k s,
  (k + m = Z.to_nat (max_retries self))%nat ->
  (forall s0, (clock s <= clock s0 < clock s + m)%nat ->
              attempt_fails_quietly try_body s0) ->
  exists s' new,
    retry_loop self url try_body (map Z.of_nat (seq k m)) s = (inr None, s') /\
    trace s' = (trace s ++ new)%list /\
    clock s' = (clock s + m)%nat /\
    retry_view new
    = flat_map (step_view (delay self) (Z.to_nat (max_retries self))) (seq (S k) m).
Proof.
  intros self url try_body Hdelay Hmax m.
  induction m as [|m IH]; intros k s Hkm Hfail.
  - exists s, []. simpl. unfold ret.
    rewrite app_nil_r, Nat.add_0_r. repeat split; reflexivity.
  - destruct (Hfail s) as (e & s1 & ev & Hrun & Hck & Htr & Hquiet); [lia|].
    cbn [seq map retry_loop]. rewrite Hrun. rewrite bind_emit.
    destruct (Z.ltb_spec (Z.of_nat k) (max_retries self - 1)) as [Hlt|Hge].
    + rewrite bind_emit, bind_sleep by nia.
      match goal with
      | |- context [retry_loop _ _ _ _ ?s2] =>
          destruct (IH (S k) s2) as (s' & new & Hloop & Htr' & Hck' & Hview)
      end.
      * lia.
      * intros s0 Hs0. apply Hfail. simpl in Hs0. lia.
      * exists s'.
        exists (ev ++ [Log WARNING (MsgAttemptFailed (Z.of_nat k + 1) (max_retries self) e);
                       Log INFO (MsgWaiting (delay self * (Z.of_nat k + 1)));
                       Sleep (delay self * (Z.of_nat k + 1))] ++ new)%list.
        split; [exact Hloop|]. split; [|split].
        -- rewrite Htr'. simpl. rewrite Htr. now rewrite <- !app_assoc.
        -- rewrite Hck'. simpl. lia.
        -- rewrite !retry_view_app, Hquiet, Hview. cbn [seq flat_map].
           unfold step_view at 2.
           destruct (Nat.ltb_spec (S k) (Z.to_nat (max_retries self))) as [_|Hbad];
             [|lia].
           simpl. replace (Z.of_nat k + 1) with (Z.pos (Pos.of_succ_nat k)) by lia.
           reflexivity.
    + assert (m = 0%nat) by lia. subst m.
      rewrite bind_emit. unfold ret.
      eexists. exists (ev ++ [Log WARNING (MsgAttemptFailed (Z.of_nat k + 1)
                                              (max_retries self) e);
                              Log ERROR (MsgFailedToRetrieve url (max_retries self))])%list.
      split; [reflexivity|]. split; [|split].
      * simpl. rewrite Htr. now rewrite <- !app_assoc.
      * simpl. lia.
      * rewrite retry_view_app, Hquiet. cbn [seq flat_map].
        unfold step_view.
        destruct (Nat.ltb_spec (S k) (Z.to_nat (max_retries self))) as [Hbad|_];
          [lia|].
        simpl. replace (Z.of_nat k + 1) with (Z.pos (Pos.of_succ_nat k)) by lia.
        reflexivity.
Qed.

Lemma browser_attempt_fails : forall world self url s,
  (forall u p ua, exists e, browser_page_source world (clock s) u p ua = inl e) ->
  attempt_fails_quietly (browser_attempt world self url) s.
Proof.
  intros world self url s Hdead.
  unfold attempt_fails_quietly, browser_attempt, bind, tick, call_get_proxy. simpl.
  destruct (get_proxy (proxy_manager s)) as [[e|proxy] pm'].
  - exists e. eexists. exists []. simpl. rewrite app_nil_r.
    repeat split; reflexivity.
  - simpl. unfold lift.
    destruct (Hdead url proxy (get_random_user_agent world self (clock s))) as [e He].
    rewrite He. exists e. eexists.
    exists [BrowserGoto url proxy (get_random_user_agent world self (clock s))].
    repeat split; reflexivity.
Qed.

Lemma direct_attempt_fails : forall world self url s,
  (forall u ua p tm, exists e, requests_get world (clock s) u ua p tm = inl e) ->
  attempt_fails_quietly (direct_attempt world self url) s.
Proof.
  intros world self url s Hdead.
  unfold attempt_fails_quietly, direct_attempt, bind, tick, call_get_proxy. simpl.
  destruct (get_proxy (proxy_manager s)) as [[e|proxy] pm'].
  - exists e. eexists. exists []. simpl. rewrite app_nil_r.
    repeat split; reflexivity.
  - simpl. unfold lift.
    destruct (Hdead url (get_random_user_agent world self (clock s)) proxy (timeout self))
      as [e He].
    rewrite He. exists e. eexists.
    exists [RequestsGet url (get_random_user_agent world self (clock s)) proxy
              (timeout self)].
    repeat split; reflexivity.
Qed.

(** C1.  With a number of retries and a delay that are not negative, a fetch
    all of whose attempts fail makes exactly [max_retries] attempts, waits
    [delay * k] after the [k]-th failed attempt for [k = 1 .. max_retries -
    1] and not after the last one, and returns [None] without raising. *)
Theorem all_attempts_fail_linear_backoff :
  forall world self url use_browser s,
  0 <= max_retries self ->
  0 <= delay self ->
  every_attempt_fails world (clock s) (Z.to_nat (max_retries self)) ->
  exists s' new,
    _make_request_with_retry world self url use_browser s = (inr None, s') /\
    trace s' = (trace s ++ new)%list /\
    Z.of_nat (clock s' - clock s) = max_retries self /\
    failed_attempts new = map Z.of_nat (seq 1 (Z.to_nat (max_retries self))) /\
    sleeps new = map (fun k => delay self * Z.of_nat k)
                     (seq 1 (Z.to_nat (max_retries self) - 1)) /\
    retry_view new = exhausted_view (delay self) (Z.to_nat (max_retries self)).
Proof.
  intros world self url use_browser s Hmax Hdelay Hdead.
  assert (Hloop : exists s' new,
    _make_request_with_retry world self url use_browser s = (inr None, s') /\
    trace s' = (trace s ++ new)%list /\
    clock s' = (clock s + Z.to_nat (max_retries self))%nat /\
    retry_view new = exhausted_view (delay self) (Z.to_nat (max_retries self))).
  { unfold _make_request_with_retry, make_request_browser, range, exhausted_view.
    destruct use_browser.
    - apply retry_loop_exhausts; try assumption; [lia|].
      intros s0 Hs0. apply browser_attempt_fails.
      intros u p ua. now apply (Hdead (clock s0) Hs0).
    - apply retry_loop_exhausts; try assumption; [lia|].
      intros s0 Hs0. apply direct_attempt_fails.
      intros u ua p tm. now apply (Hdead (clock s0) Hs0). }
  destruct Hloop as (s' & new & Hrun & Htr & Hck & Hview).
  exists s', new. repeat split; try assumption.
  - rewrite Hck. lia.
  - unfold failed_attempts, exhausted_view. rewrite Hview.
    apply failures_of_steps.
  - unfold sleeps. rewrite Hview. unfold exhausted_view.
    apply waits_of_steps. lia.
Qed.

Lemma all_attempts_fail_linear_backoff_witness :
  exists s' new,
    _make_request_with_retry dead_world default_engine "https://www.tiktok.com/tag/x"
      true (initial_state default_proxy_manager) = (inr None, s') /\
    trace s' = (trace (initial_state default_proxy_manager) ++ new)%list /\
    Z.of_nat (clock s' - clock (initial_state default_proxy_manager)) = 3 /\
    failed_attempts new = [1; 2; 3] /\
    sleeps new = [2; 4] /\
    retry_view new = [Failed 1; Waited 2; Failed 2; Waited 4; Failed 3].
Proof.
  apply (all_attempts_fail_linear_backoff dead_world default_engine
           "https://www.tiktok.com/tag/x" true (initial_state default_proxy_manager)).
  - simpl. lia.
  - simpl. lia.
  - intros t Ht. split.
    + intros u ua p tm. exists (OtherError "timeout"). reflexivity.
    + intros u p ua. exists (OtherError "timeout"). reflexivity.
Defined.

(** The exhausted fetch of the default engine, run. *)
Example exhausted_fetch_trace :
  _make_request_with_retry dead_world default_engine "u" false
    (initial_state default_proxy_manager)
  = (inr None,
     mkState default_proxy_manager 3
       [RequestsGet "u" default_user_agent None 30;
        Log WARNING (MsgAttemptFailed 1 3 (OtherError "timeout"));
        Log INFO (MsgWaiting 2); Sleep 2;
        RequestsGet "u" default_user_agent None 30;
        Log WARNING (MsgAttemptFailed 2 3 (OtherError "timeout"));
        Log INFO (MsgWaiting 4); Sleep 4;
        RequestsGet "u" default_user_agent None 30;
        Log WARNING (MsgAttemptFailed 3 3 (OtherError "timeout"));
        Log ERROR (MsgFailedToRetrieve "u" 3)]).
Proof. vm_compute. reflexivity. Qed.

(** A negative delay makes the first wait raise: the hypothesis on the delay
    cannot be dropped. *)
Example negative_delay_raises :
  fst (_make_request_with_retry dead_world (mkEngine 3 30 (-1) [] []) "u" true
         (initial_state default_proxy_manager))
  = inl ValueError.
Proof. vm_compute. reflexivity. Qed.

(** ** The retry loop: escalation to browser mode *)

Lemma fetch_view_app : forall a b,
  fetch_view (a ++ b) = (fetch_view a ++ fetch_view b)%list.
Proof. intros. apply flat_map_app. Qed.

Lemma get_proxy_ok : forall pm,
  proxy_ok pm ->
  exists r pm', get_proxy pm = (inr r, pm') /\ proxy_ok pm'.
Proof.
  intros pm Hok. unfold get_proxy.
  destruct (negb (enabled pm) || match proxies pm with [] => true | _ => false end)
    eqn:Hoff.
  - now exists None, pm.
  - assert (Hne : proxies pm <> []).
    { intro E. rewrite E in Hoff. now rewrite orb_true_r in Hoff. }
    destruct Hok as [E|Hc]; [contradiction|].
    destruct (rotation pm).
    + destruct (nth_error (proxies pm) (current_index pm)) as [p|] eqn:Hp.
      * eexists. eexists. split; [reflexivity|].
        right. simpl. apply Nat.mod_upper_bound. lia.
      * apply nth_error_None in Hp. lia.
    + destruct (proxies pm) as [|p ps] eqn:E; [contradiction|].
      simpl. exists (url p), pm. split; [reflexivity|].
      right. rewrite E. exact Hc.
Qed.

(** One browser attempt sends the browser to [url] once, and nothing else
    is fetched. *)
Lemma browser_attempt_run : forall world self url s,
  proxy_ok (proxy_manager s) ->
  exists r s1 ev,
    browser_attempt world self url s = (r, s1) /\
    clock s1 = S (clock s) /\
    proxy_ok (proxy_manager s1) /\
    trace s1 = (trace s ++ ev)%list /\
    fetch_view ev = [BrowserFetch url].
Proof.
  intros world self url s Hok.
  destruct (get_proxy_ok (proxy_manager s) Hok) as (proxy & pm' & Hg & Hok').
  unfold browser_attempt, bind, tick, call_get_proxy. simpl. rewrite Hg. simpl.
  unfold lift.
  destruct (browser_page_source world (clock s) url proxy
              (get_random_user_agent world self (clock s))) as [e|page_source].
  - eexists. eexists.
    exists [BrowserGoto url proxy (get_random_user_agent world self (clock s))].
    repeat split; try reflexivity. exact Hok'.
  - destruct (_check_for_captcha page_source).
    + unfold _handle_captcha, bind, emit, lift. simpl.
      destruct (operator_page_source world (clock s)) as [e|content].
      * eexists. eexists.
        exists [BrowserGoto url proxy (get_random_user_agent world self (clock s));
                Log WARNING MsgCaptchaManual; OperatorPrompt].
        repeat split; try reflexivity; [exact Hok'|].
        simpl. now rewrite <- !app_assoc.
      * eexists. eexists.
        exists [BrowserGoto url proxy (get_random_user_agent world self (clock s));
                Log WARNING MsgCaptchaManual; OperatorPrompt].
        repeat split; try reflexivity; [exact Hok'|].
        simpl. now rewrite <- !app_assoc.
    + eexists. eexists.
      exists [BrowserGoto url proxy (get_random_user_agent world self (clock s))].
      repeat split; try reflexivity. exact Hok'.
Qed.

(** A fetch in browser mode returns (it does not raise when the delay is not
    negative), goes to [url] only, at least once and at most once per
    attempt left, and never switches mode. *)
Lemma browser_loop_run : forall world self url,
  0 <= delay self ->
  forall m k s,
  proxy_ok (proxy_manager s) ->
  exists r s' ev b,
    retry_loop self url (browser_attempt world self url) (map Z.of_nat (seq k m)) s
      = (inr r, s') /\
    trace s' = (trace s ++ ev)%list /\
    proxy_ok (proxy_manager s') /\
    fetch_view ev = repeat (BrowserFetch url) b /\
    (b <= m)%nat /\
    (1 <= m -> 1 <= b)%nat.
Proof.
  intros world self url Hdelay m.
  induction m as [|m IH]; intros k s Hok.
  - exists None, s, [], 0%nat. simpl. unfold ret. rewrite app_nil_r.
    repeat split; try reflexivity; try assumption; lia.
  - destruct (browser_attempt_run world self url s Hok)
      as (res & s1 & ev1 & Hrun & Hck & Hok1 & Htr1 & Hv1).
    cbn [seq map retry_loop]. rewrite Hrun.
    destruct res as [e|content].
    + rewrite bind_emit.
      destruct (Z.of_nat k <? max_retries self - 1).
      * rewrite bind_emit, bind_sleep by nia.
        match goal with
        | |- context [retry_loop _ _ _ _ ?s2] =>
            destruct (IH (S k) s2 Hok1) as (r & s' & ev & b & Hloop & Htr & Hok' & Hv & Hb & _)
        end.
        exists r, s'.
        exists (ev1 ++ [Log WARNING (MsgAttemptFailed (Z.of_nat k + 1) (max_retries self) e);
                        Log INFO (MsgWaiting (delay self * (Z.of_nat k + 1)));
                        Sleep (delay self * (Z.of_nat k + 1))] ++ ev)%list.
        exists (S b). split; [exact Hloop|].
        repeat split; try assumption; try lia.
        -- rewrite Htr. simpl. rewrite Htr1. now rewrite <- !app_assoc.
        -- rewrite !fetch_view_app, Hv1, Hv. reflexivity.
      * rewrite bind_emit. unfold ret.
        exists None. eexists.
        exists (ev1 ++ [Log WARNING (MsgAttemptFailed (Z.of_nat k + 1) (max_retries self) e);
                        Log ERROR (MsgFailedToRetrieve url (max_retries self))])%list.
        exists 1%nat. split; [reflexivity|].
        repeat split; try assumption; try lia.
        -- simpl. rewrite Htr1. now rewrite <- !app_assoc.
        -- rewrite fetch_view_app, Hv1. reflexivity.
    + exists content, s1, ev1, 1%nat.
      repeat split; try assumption; try lia.
Qed.

Lemma direct_attempt_fails_run : forall world self url s,
  proxy_ok (proxy_manager s) ->
  (forall ua p tm, exists e, requests_get world (clock s) url ua p tm = inl e) ->
  exists e s1 ev,
    direct_attempt world self url s = (inl e, s1) /\
    clock s1 = S (clock s) /\
    proxy_ok (proxy_manager s1) /\
    trace s1 = (trace s ++ ev)%list /\
    fetch_view ev = [DirectFetch url].
Proof.
  intros world self url s Hok Hdead.
  destruct (get_proxy_ok (proxy_manager s) Hok) as (proxy & pm' & Hg & Hok').
  unfold direct_attempt, bind, tick, call_get_proxy. simpl. rewrite Hg. simpl.
  unfold lift.
  destruct (Hdead (get_random_user_agent world self (clock s)) proxy (timeout self))
    as [e He].
  rewrite He. exists e. eexists.
  exists [RequestsGet url (get_random_user_agent world self (clock s)) proxy
            (timeout self)].
  repeat split; try reflexivity. exact Hok'.
Qed.

(** A direct attempt whose response triggers the detector hands over to one
    fetch in browser mode, for the same address. *)
Lemma direct_attempt_escalates : forall world self url s body,
  proxy_ok (proxy_manager s) ->
  (forall ua p tm, requests_get world (clock s) url ua p tm = inr body) ->
  _check_for_captcha body = true ->
  exists s1 ev,
    direct_attempt world self url s = make_request_browser world self url s1 /\
    clock s1 = S (clock s) /\
    proxy_ok (proxy_manager s1) /\
    trace s1 = (trace s ++ ev)%list /\
    fetch_view ev = [DirectFetch url; Escalation].
Proof.
  intros world self url s body Hok Hbody Hcaptcha.
  destruct (get_proxy_ok (proxy_manager s) Hok) as (proxy & pm' & Hg & Hok').
  unfold direct_attempt, bind, tick, call_get_proxy. simpl. rewrite Hg. simpl.
  unfold lift. rewrite Hbody, Hcaptcha. simpl.
  eexists.
  exists [RequestsGet url (get_random_user_agent world self (clock s)) proxy
            (timeout self);
          Log WARNING MsgCaptchaSwitchToBrowser].
  split; [reflexivity|].
  repeat split; try reflexivity; [exact Hok'|].
  simpl. now rewrite <- !app_assoc.
Qed.

Lemma direct_loop_escalates : forall world self url body,
  0 <= delay self ->
  _check_for_captcha body = true ->
  forall j m k s,
  (j < m)%nat ->
  (k + m = Z.to_nat (max_retries self))%nat ->
  proxy_ok (proxy_manager s) ->
  (forall t ua p tm, (clock s <= t < clock s + j)%nat ->
                     exists e, requests_get world t url ua p tm = inl e) ->
  (forall ua p tm, requests_get world (clock s + j) url ua p tm = inr body) ->
  exists s1 pre r s' ev b,
    trace s1 = (trace s ++ pre)%list /\
    clock s1 = (clock s + S j)%nat /\
    fetch_view pre = (repeat (DirectFetch url) (S j) ++ [Escalation])%list /\
    make_request_browser world self url s1 = (inr r, s') /\
    retry_loop self url (direct_attempt world self url) (map Z.of_nat (seq k m)) s
      = (inr r, s') /\
    trace s' = (trace s1 ++ ev)%list /\
    fetch_view ev = repeat (BrowserFetch url) b /\
    (1 <= b <= Z.to_nat (max_retries self))%nat.
Proof.
  intros world self url body Hdelay Hcaptcha j.
  induction j as [|j IH]; intros m k s Hjm Hkm Hok Hdead Hbody.
  - destruct m as [|m]; [lia|].
    rewrite Nat.add_0_r in Hbody.
    destruct (direct_attempt_escalates world self url s body Hok Hbody Hcaptcha)
      as (s1 & pre & Hrun & Hck & Hok1 & Htr & Hv).
    destruct (browser_loop_run world self url Hdelay
                (Z.to_nat (max_retries self)) 0 s1 Hok1)
      as (r & s' & ev & b & Hloop & Htr' & _ & Hv' & Hb & Hb1).
    exists s1, pre, r, s', ev, b.
    repeat split; try assumption; try lia.
    cbn [seq map retry_loop]. rewrite Hrun.
    unfold make_request_browser, range. rewrite Hloop. reflexivity.
  - destruct m as [|m]; [lia|].
    destruct (direct_attempt_fails_run world self url s Hok)
      as (e & s1 & ev1 & Hrun & Hck & Hok1 & Htr1 & Hv1).
    { intros ua p tm. apply Hdead. lia. }
    cbn [seq map retry_loop]. rewrite Hrun. rewrite bind_emit.
    destruct (Z.ltb_spec (Z.of_nat k) (max_retries self - 1)) as [_|Hbad]; [|lia].
    rewrite bind_emit, bind_sleep by nia.
    match goal with
    | |- context [retry_loop _ _ _ _ ?s2] =>
        destruct (IH m (S k) s2)
          as (s3 & pre & r & s' & ev & b & Htr & Hck' & Hv & Hbrowser & Hloop &
              Htr' & Hv' & Hb)
    end.
    + lia.
    + lia.
    + exact Hok1.
    + intros t ua p tm Ht. apply Hdead. simpl in Ht. lia.
    + simpl. rewrite Hck.
      replace (S (clock s) + j)%nat with (clock s + S j)%nat by lia.
      exact Hbody.
    + exists s3.
      exists (ev1 ++ [Log WARNING (MsgAttemptFailed (Z.of_nat k + 1) (max_retries self) e);
                      Log INFO (MsgWaiting (delay self * (Z.of_nat k + 1)));
                      Sleep (delay self * (Z.of_nat k + 1))] ++ pre)%list.
      exists r, s', ev, b.
      repeat split; try assumption; try lia.
      * rewrite Htr. simpl. rewrite Htr1. now rewrite <- !app_assoc.
      * rewrite Hck'. simpl. lia.
      * rewrite !fetch_view_app, Hv1, Hv. reflexivity.
Qed.

Lemma no_escalation_in_repeat : forall st n,
  st <> Escalation ->
  filter (fun st => match st with Escalation => true | _ => false end) (repeat st n) = [].
Proof.
  intros st n Hst. induction n as [|n IH]; [reflexivity|].
  simpl. rewrite IH. destruct st; [reflexivity|contradiction|reflexivity].
Qed.

(** C2.  A fetch in direct mode whose response triggers the CAPTCHA detector
    (after [j] direct attempts that failed) is continued by exactly one
    fetch in browser mode for the same address, started in the state [s1]
    reached at the switch, and returns what that fetch returns: the log
    shows one switch of mode, no direct request after it, and between one
    and [max_retries] visits of the browser, all to that address. *)
Theorem captcha_escalates_exactly_once : forall world self url s j body,
  0 <= delay self ->
  (j < Z.to_nat (max_retries self))%nat ->
  proxy_ok (proxy_manager s) ->
  (forall t ua p tm, (clock s <= t < clock s + j)%nat ->
                     exists e, requests_get world t url ua p tm = inl e) ->
  (forall ua p tm, requests_get world (clock s + j) url ua p tm = inr body) ->
  _check_for_captcha body = true ->
  exists s1 pre r s' new b,
    trace s1 = (trace s ++ pre)%list /\
    fetch_view pre = (repeat (DirectFetch url) (S j) ++ [Escalation])%list /\
    clock s1 = (clock s + S j)%nat /\
    _make_request_with_retry world self url true s1 = (inr r, s') /\
    _make_request_with_retry world self url false s = (inr r, s') /\
    trace s' = (trace s ++ new)%list /\
    fetch_view new
    = (repeat (DirectFetch url) (S j) ++ [Escalation]
       ++ repeat (BrowserFetch url) b)%list /\
    (1 <= b <= Z.to_nat (max_retries self))%nat /\
    escalations new = 1%nat.
Proof.
  intros world self url s j body Hdelay Hj Hok Hdead Hbody Hcaptcha.
  destruct (direct_loop_escalates world self url body Hdelay Hcaptcha
              j (Z.to_nat (max_retries self)) 0 s Hj eq_refl Hok Hdead Hbody)
    as (s1 & pre & r & s' & ev & b & Htr & Hck & Hv & Hbrowser & Hloop & Htr' & Hv' & Hb).
  assert (Hview : fetch_view (pre ++ ev)
                  = (repeat (DirectFetch url) (S j) ++ [Escalation]
                     ++ repeat (BrowserFetch url) b)%list).
  { rewrite fetch_view_app, Hv, Hv'. now rewrite <- app_assoc. }
  exists s1, pre, r, s', (pre ++ ev)%list, b.
  repeat split; try assumption; try lia.
  - rewrite Htr', Htr. now rewrite <- app_assoc.
  - unfold escalations. rewrite Hview, !filter_app.
    rewrite !no_escalation_in_repeat by discriminate. reflexivity.
Qed.

Lemma captcha_escalates_exactly_once_witness :
  exists s1 pre r s' new b,
    trace s1 = (trace (initial_state default_proxy_manager) ++ pre)%list /\
    fetch_view pre
    = (repeat (DirectFetch "https://example.org/p") 1 ++ [Escalation])%list /\
    clock s1 = (clock (initial_state default_proxy_manager) + 1)%nat /\
    _make_request_with_retry challenge_world default_engine "https://example.org/p"
      true s1 = (inr r, s') /\
    _make_request_with_retry challenge_world default_engine "https://example.org/p"
      false (initial_state default_proxy_manager) = (inr r, s') /\
    trace s' = (trace (initial_state default_proxy_manager) ++ new)%list /\
    fetch_view new
    = (repeat (DirectFetch "https://example.org/p") 1 ++ [Escalation]
       ++ repeat (BrowserFetch "https://example.org/p") b)%list /\
    (1 <= b <= 3)%nat /\
    escalations new = 1%nat.
Proof.
  apply (captcha_escalates_exactly_once challenge_world default_engine
           "https://example.org/p" (initial_state default_proxy_manager) 0
           "Please complete CAPTCHA").
  - simpl. lia.
  - simpl. lia.
  - left. reflexivity.
  - intros t ua p tm Ht. simpl in Ht. lia.
  - intros ua p tm. reflexivity.
  - vm_compute. reflexivity.
Defined.

(** The escalation of the default engine, run. *)
Example escalation_trace :
  _make_request_with_retry challenge_world default_engine "u" false
    (initial_state default_proxy_manager)
  = (inr (Some "<html>content</html>"),
     mkState default_proxy_manager 2
       [RequestsGet "u" default_user_agent None 30;
        Log WARNING MsgCaptchaSwitchToBrowser;
        BrowserGoto "u" None default_user_agent]).
Proof. vm_compute. reflexivity. Qed.

(** The detector is not case sensitive. *)
Example captcha_mixed_case :
  _check_for_captcha "Please Complete CAPTCHA" = true /\
  _check_for_captcha "<html>content</html>" = false.
Proof. split; vm_compute; reflexivity. Qed.

(** ** The batch *)

(** The records of the futures that hold a result, in submission order. *)
Lemma collect_spec : forall futures all_data s,
  exists s',
    collect futures all_data s
    = (inr (all_data
            ++ flat_map (fun future => match future with
                                       | inr result => result
                                       | inl _ => []
                                       end) futures)%list, s').
Proof.
  induction futures as [|future rest IH]; intros all_data s.
  - exists s. simpl. unfold ret. now rewrite app_nil_r.
  - cbn [collect flat_map]. destruct future as [e|result].
    + rewrite bind_emit.
      match goal with
      | |- context [collect rest all_data ?s1] =>
          destruct (IH all_data s1) as (s' & ->)
      end.
      now exists s'.
    + destruct (IH (all_data ++ result)%list s) as (s' & ->).
      exists s'. now rewrite <- app_assoc.
Qed.

(** The submission loop never raises: what a job raises stays in its
    future. *)
Lemma submit_all_returns : forall world dom self tasks futures s,
  exists futures' s',
    submit_all world dom self tasks futures s = (inr futures', s').
Proof.
  intros world dom self tasks.
  induction tasks as [|[platform param] rest IH]; intros futures s.
  - now exists futures, s.
  - cbn [submit_all]. destruct (dispatch world dom self platform param) as [job|].
    + unfold bind at 1, submit. destruct (job s) as [r s1].
      rewrite bind_sleep by lia. apply IH.
    + apply IH.
Qed.

(** With at least one task and at least one worker, the batch completes and
    returns the records of the jobs that returned. *)
Lemma batch_completes_when_pool_not_empty : forall world dom self max_workers s,
  0 < Z.min max_workers (Z.of_nat (List.length (scraping_tasks self))) ->
  exists futures s1 s',
    submit_all world dom self (scraping_tasks self) [] s = (inr futures, s1) /\
    scrape_all_platforms world dom self max_workers s
    = (inr (flat_map (fun future => match future with
                                    | inr result => result
                                    | inl _ => []
                                    end) futures), s').
Proof.
  intros world dom self max_workers s Hpool.
  unfold scrape_all_platforms. cbv zeta.
  destruct (Z.leb_spec (Z.min max_workers (Z.of_nat (List.length (scraping_tasks self)))) 0)
    as [Hbad|_]; [lia|].
  destruct (submit_all_returns world dom self (scraping_tasks self) [] s)
    as (futures & s1 & Hsubmit).
  destruct (collect_spec futures [] s1) as (s2 & Hcollect).
  exists futures, s1. eexists. split; [exact Hsubmit|].
  unfold bind at 1. rewrite Hsubmit.
  unfold bind at 1. rewrite Hcollect.
  rewrite bind_emit. reflexivity.
Qed.

(** C3 fails on the code.  With the configuration the module falls back to
    when [config.yaml] cannot be loaded, there is no task, the pool is
    created with [max_workers = min(max_workers, 0) = 0], and
    [scrape_all_platforms] raises [ValueError] instead of returning the
    empty list; so it does for any configuration without tasks and for any
    [max_workers <= 0]. *)
Theorem batch_without_tasks_raises : forall world dom max_workers s,
  scrape_all_platforms world dom default_engine max_workers s = (inl ValueError, s).
Proof.
  intros world dom max_workers s.
  unfold scrape_all_platforms. cbv zeta.
  change (Z.of_nat (List.length (scraping_tasks default_engine))) with 0.
  destruct (Z.leb_spec (Z.min max_workers 0) 0) as [_|Hbad]; [reflexivity|lia].
Qed.

(** The same for a batch that has tasks and is given no worker. *)
Example batch_without_workers_raises :
  fst (scrape_all_platforms challenge_world (sample_dom [])
         (mkEngine 3 30 2 [] [mkPlatform (Some "amazon") None None None None None None])
         0 (initial_state default_proxy_manager))
  = inl ValueError.
Proof. vm_compute. reflexivity. Qed.

(** * Further properties of the scraper engine *)

(** ** ProxyManager over any number of calls *)

Lemma get_proxy_settings : forall pm,
  enabled (snd (get_proxy pm)) = enabled pm /\
  rotation (snd (get_proxy pm)) = rotation pm /\
  proxies (snd (get_proxy pm)) = proxies pm.
Proof.
  intro pm. unfold get_proxy.
  destruct (negb (enabled pm) || match proxies pm with [] => true | _ => false end);
    [repeat split|].
  destruct (rotation pm) eqn:Hr.
  - destruct (nth_error (proxies pm) (current_index pm)); simpl; repeat split;
      congruence.
  - destruct (nth_error (proxies pm) 0); simpl; repeat split; congruence.
Qed.

Lemma after_calls_keeps : forall n pm,
  proxy_ok pm ->
  proxy_ok (after_calls n pm) /\ proxies (after_calls n pm) = proxies pm.
Proof.
  induction n as [|n IH]; intros pm Hok; [now split|].
  simpl. destruct (get_proxy_ok pm Hok) as (r & pm' & Hg & Hok').
  destruct (get_proxy_settings pm) as (_ & _ & Hp).
  rewrite Hg in *. simpl in *.
  destruct (IH pm' Hok') as [H1 H2]. split; [exact H1|congruence].
Qed.

Lemma get_proxy_value : forall pm v pm',
  get_proxy pm = (inr v, pm') ->
  v = None \/ exists p, In p (proxies pm) /\ v = url p.
Proof.
  intros pm v pm'. unfold get_proxy.
  destruct (negb (enabled pm) || match proxies pm with [] => true | _ => false end).
  - intro H. left. congruence.
  - destruct (rotation pm).
    + destruct (nth_error (proxies pm) (current_index pm)) as [p|] eqn:Hp;
        intro H; [|discriminate].
      right. exists p. split; [now apply nth_error_In in Hp|congruence].
    + destruct (nth_error (proxies pm) 0) as [p|] eqn:Hp; intro H; [|discriminate].
      right. exists p. split; [now apply nth_error_In in Hp|congruence].
Qed.

(** X1.  A manager built by [__init__], whatever its settings and providers,
    never raises: each call, after any number of earlier calls, returns
    [None] or the [url] entry of one of the configured providers. *)
Theorem get_proxy_never_raises_after_init :
  forall enabled rotation providers n,
  exists v,
    nth_call n (ProxyManager_init enabled rotation providers) = inr v /\
    (v = None \/ exists p, In p providers /\ v = url p).
Proof.
  intros en ro providers n.
  set (pm := ProxyManager_init en ro providers).
  assert (Hok : proxy_ok pm).
  { unfold proxy_ok, pm. simpl. destruct providers; [now left|right; simpl; lia]. }
  destruct (after_calls_keeps n pm Hok) as [Hok' Hp].
  destruct (get_proxy_ok _ Hok') as (v & pm' & Hg & _).
  exists v. unfold nth_call. rewrite Hg. split; [reflexivity|].
  destruct (get_proxy_value _ _ _ Hg) as [H|(p & Hin & H)]; [now left|].
  right. exists p. rewrite Hp in Hin. now split.
Qed.

(** X2.  The proxies handed out repeat with the number of providers as
    period: the call that follows [n + len(proxies)] calls returns what the
    call that follows [n] calls returns. *)
Theorem get_proxy_is_periodic : forall pm n,
  proxy_ok pm ->
  nth_call (n + List.length (proxies pm)) pm = nth_call n pm.
Proof.
  intros pm n Hok. unfold nth_call.
  destruct (enabled pm) eqn:He.
  - destruct (proxies pm) as [|p ps] eqn:Hp.
    + simpl. now rewrite Nat.add_0_r.
    + destruct Hok as [Hok|Hok]; [congruence|].
      destruct (rotation pm) eqn:Hr.
      * rewrite !after_calls_rotating by assumption.
        rewrite Hp. f_equal. f_equal.
        rewrite Nat.add_assoc.
        rewrite <- (Nat.Div0.add_mod_idemp_r _ (List.length (p :: ps))).
        rewrite Nat.Div0.mod_same, Nat.add_0_r. reflexivity.
      * rewrite !after_calls_sticky; try assumption; try congruence; reflexivity.
  - assert (Hfix : forall k, after_calls k pm = pm).
    { induction k as [|k IH]; [reflexivity|].
      simpl. rewrite get_proxy_disabled by assumption. exact IH. }
    now rewrite !Hfix.
Qed.

Lemma get_proxy_is_periodic_witness :
  nth_call (2 + List.length (proxies (ProxyManager_init true true three_proxies)))
    (ProxyManager_init true true three_proxies)
  = nth_call 2 (ProxyManager_init true true three_proxies).
Proof.
  apply (get_proxy_is_periodic (ProxyManager_init true true three_proxies) 2).
  right. simpl. lia.
Defined.

(** ** The CAPTCHA detector *)






(** ** The retry loop: success, bounds and edge cases *)

Lemma waits_of_retries : forall d j a,
  waits_of (flat_map (fun i => [Failed (Z.of_nat i); Waited (d * Z.of_nat i)]) (seq a j))
  = map (fun k => d * Z.of_nat k) (seq a j).
Proof.
  intros d j. induction j as [|j IH]; intro a; [reflexivity|].
  cbn [seq flat_map map]. rewrite waits_of_app, IH. reflexivity.
Qed.

(** The loop around a body that raises [j] times and then returns [c]:
    [j] waits, and nothing after the attempt that succeeds.  [Inv] is what
    the body needs of the proxy manager and keeps; [fv_fail] and [fv_ok]
    are the requests of a failing and of the succeeding attempt. *)
Lemma retry_loop_succeeds : forall self url try_body (Inv : ProxyManager -> Prop)
    fv_fail fv_ok c,
  0 <= delay self ->
  forall j m k s,
  (j < m)%nat ->
  (k + m = Z.to_nat (max_retries self))%nat ->
  Inv (proxy_manager s) ->
  (forall s0, Inv (proxy_manager s0) -> (clock s <= clock s0 < clock s + j)%nat ->
     exists e s1 ev,
       try_body s0 = (inl e, s1) /\ clock s1 = S (clock s0) /\
       Inv (proxy_manager s1) /\ trace s1 = (trace s0 ++ ev)%list /\
       retry_view ev = [] /\ fetch_view ev = fv_fail) ->
  (forall s0, Inv (proxy_manager s0) -> clock s0 = (clock s + j)%nat ->
     exists s1 ev,
       try_body s0 = (inr c, s1) /\ clock s1 = S (clock s0) /\
       trace s1 = (trace s0 ++ ev)%list /\
       retry_view ev = [] /\ fetch_view ev = fv_ok) ->
  exists s' new,
    retry_loop self url try_body (map Z.of_nat (seq k m)) s = (inr c, s') /\
    trace s' = (trace s ++ new)%list /\
    clock s' = (clock s + S j)%nat /\
    retry_view new
    = flat_map (fun i => [Failed (Z.of_nat i); Waited (delay self * Z.of_nat i)])
        (seq (S k) j) /\
    fetch_view new = (List.concat (repeat fv_fail j) ++ fv_ok)%list.
Proof.
  intros self url try_body Inv fv_fail fv_ok c Hdelay j.
  induction j as [|j IH]; intros m k s Hjm Hkm Hinv Hfail Hsucc.
  - destruct m as [|m]; [lia|].
    destruct (Hsucc s Hinv) as (s1 & ev & Hrun & Hck & Htr & Hq & Hv); [lia|].
    cbn [seq map retry_loop]. rewrite Hrun.
    exists s1, ev. repeat split; try assumption. lia.
  - destruct m as [|m]; [lia|].
    destruct (Hfail s Hinv) as (e & s1 & ev1 & Hrun & Hck & Hinv1 & Htr1 & Hq1 & Hv1);
      [lia|].
    cbn [seq map retry_loop]. rewrite Hrun, bind_emit.
    destruct (Z.ltb_spec (Z.of_nat k) (max_retries self - 1)) as [_|Hbad]; [|lia].
    rewrite bind_emit, bind_sleep by nia.
    match goal with
    | |- context [retry_loop _ _ _ _ ?s2] =>
        destruct (IH m (S k) s2) as (s' & new & Hloop & Htr & Hck' & Hq & Hv)
    end.
    + lia.
    + lia.
    + exact Hinv1.
    + intros s0 Hi Hs0. apply Hfail; [exact Hi|]. simpl in Hs0. lia.
    + intros s0 Hi Hs0. apply Hsucc; [exact Hi|]. simpl in Hs0. lia.
    + exists s'.
      exists (ev1 ++ [Log WARNING (MsgAttemptFailed (Z.of_nat k + 1) (max_retries self) e);
                      Log INFO (MsgWaiting (delay self * (Z.of_nat k + 1)));
                      Sleep (delay self * (Z.of_nat k + 1))] ++ new)%list.
      split; [exact Hloop|]. split; [|split; [|split]].
      * rewrite Htr. simpl. rewrite Htr1. now rewrite <- !app_assoc.
      * rewrite Hck'. simpl. lia.
      * rewrite !retry_view_app, Hq1, Hq. cbn [seq flat_map].
        simpl. replace (Z.of_nat k + 1) with (Z.pos (Pos.of_succ_nat k)) by lia.
        reflexivity.
      * rewrite !fetch_view_app, Hv1, Hv. simpl. now rewrite <- app_assoc.
Qed.

Lemma browser_visits_of_repeat : forall url j,
  flat_map (fun st => match st with BrowserFetch u => [u] | _ => [] end)
    (List.concat (repeat [BrowserFetch url] j) ++ [BrowserFetch url])
  = repeat url (S j).
Proof.
  intros url j. induction j as [|j IH]; [reflexivity|].
  simpl. simpl in IH. now rewrite IH.
Qed.

Lemma direct_requests_of_repeat : forall url j,
  flat_map (fun st => match st with DirectFetch u => [u] | _ => [] end)
    (List.concat (repeat [DirectFetch url] j) ++ [DirectFetch url])
  = repeat url (S j).
Proof.
  intros url j. induction j as [|j IH]; [reflexivity|].
  simpl. simpl in IH. now rewrite IH.
Qed.

(** X4.  In browser mode, when the first [j] visits fail and the next one
    gives a page without a challenge, the fetch returns that page and stops:
    [j + 1] attempts, all to the requested address, and the waits
    [delay * 1, ..., delay * j] between them. *)
Theorem browser_fetch_returns_first_page : forall world self url s j page,
  0 <= delay self ->
  (j < Z.to_nat (max_retries self))%nat ->
  proxy_ok (proxy_manager s) ->
  (forall t p ua, (clock s <= t < clock s + j)%nat ->
                  exists e, browser_page_source world t url p ua = inl e) ->
  (forall p ua, browser_page_source world (clock s + j) url p ua = inr page) ->
  _check_for_captcha page = false ->
  exists s' new,
    _make_request_with_retry world self url true s = (inr (Some page), s') /\
    trace s' = (trace s ++ new)%list /\
    clock s' = (clock s + S j)%nat /\
    sleeps new = map (fun k => delay self * Z.of_nat k) (seq 1 j) /\
    browser_visits new = repeat url (S j).
Proof.
  intros world self url s j page Hdelay Hj Hok Hdead Hpage Hclean.
  destruct (retry_loop_succeeds self url (browser_attempt world self url) proxy_ok
              [BrowserFetch url] [BrowserFetch url] (Some page) Hdelay
              j (Z.to_nat (max_retries self)) 0 s Hj eq_refl Hok)
    as (s' & new & Hrun & Htr & Hck & Hq & Hv).
  - intros s0 Hi Hs0.
    destruct (get_proxy_ok _ Hi) as (proxy & pm' & Hg & Hok').
    unfold browser_attempt, bind, tick, call_get_proxy. simpl. rewrite Hg. simpl.
    unfold lift.
    destruct (Hdead (clock s0) proxy (get_random_user_agent world self (clock s0)) Hs0)
      as [e He].
    rewrite He. exists e. eexists.
    exists [BrowserGoto url proxy (get_random_user_agent world self (clock s0))].
    repeat split; try reflexivity. exact Hok'.
  - intros s0 Hi Hs0.
    destruct (get_proxy_ok _ Hi) as (proxy & pm' & Hg & Hok').
    unfold browser_attempt, bind, tick, call_get_proxy. simpl. rewrite Hg. simpl.
    unfold lift. rewrite Hs0, Hpage, Hclean. eexists.
    exists [BrowserGoto url proxy
              (get_random_user_agent world self (clock s + j))].
    repeat split; reflexivity.
  - exists s', new. split; [exact Hrun|]. repeat split; try assumption.
    + unfold sleeps. rewrite Hq. apply waits_of_retries.
    + unfold browser_visits. rewrite Hv. apply browser_visits_of_repeat.
Qed.

Lemma browser_fetch_returns_first_page_witness :
  exists s' new,
    _make_request_with_retry flaky_world default_engine "https://example.org/p" true
      (initial_state default_proxy_manager)
    = (inr (Some "<html>content</html>"), s') /\
    trace s' = (trace (initial_state default_proxy_manager) ++ new)%list /\
    clock s' = (clock (initial_state default_proxy_manager) + 3)%nat /\
    sleeps new = [2; 4] /\
    browser_visits new = repeat "https://example.org/p" 3.
Proof.
  apply (browser_fetch_returns_first_page flaky_world default_engine
           "https://example.org/p" (initial_state default_proxy_manager) 2
           "<html>content</html>").
  - simpl. lia.
  - simpl. lia.
  - left. reflexivity.
  - intros t p ua Ht. simpl in Ht.
    destruct t as [|[|t]]; [eexists; reflexivity|eexists; reflexivity|lia].
  - intros p ua. reflexivity.
  - vm_compute. reflexivity.
Defined.

Lemma concat_repeat_singleton : forall (A : Type) (x : A) j,
  (List.concat (repeat [x] j) ++ [x])%list = repeat x (S j).
Proof.
  intros A x j. induction j as [|j IH]; [reflexivity|].
  simpl. simpl in IH. now rewrite IH.
Qed.

Lemma no_browser_in_direct : forall url n,
  flat_map (fun st => match st with BrowserFetch u => [u] | _ => [] end)
    (repeat (DirectFetch url) n) = [].
Proof.
  intros url n. induction n as [|n IH]; [reflexivity|exact IH].
Qed.

Lemma direct_of_direct : forall url n,
  flat_map (fun st => match st with DirectFetch u => [u] | _ => [] end)
    (repeat (DirectFetch url) n) = repeat url n.
Proof.
  intros url n. induction n as [|n IH]; [reflexivity|]. simpl. now rewrite IH.
Qed.

(** X5.  In direct mode, when the first [j] requests fail and the next one
    answers with a body that does not trigger the detector, the fetch
    returns that body and stops: [j + 1] requests to the address, the waits
    [delay * 1, ..., delay * j], no browser and no switch of mode. *)
Theorem direct_fetch_returns_first_response : forall world self url s j body,
  0 <= delay self ->
  (j < Z.to_nat (max_retries self))%nat ->
  proxy_ok (proxy_manager s) ->
  (forall t ua p tm, (clock s <= t < clock s + j)%nat ->
                     exists e, requests_get world t url ua p tm = inl e) ->
  (forall ua p tm, requests_get world (clock s + j) url ua p tm = inr body) ->
  _check_for_captcha body = false ->
  exists s' new,
    _make_request_with_retry world self url false s = (inr (Some body), s') /\
    trace s' = (trace s ++ new)%list /\
    clock s' = (clock s + S j)%nat /\
    sleeps new = map (fun k => delay self * Z.of_nat k) (seq 1 j) /\
    direct_requests new = repeat url (S j) /\
    browser_visits new = [] /\
    escalations new = 0%nat.
Proof.
  intros world self url s j body Hdelay Hj Hok Hdead Hbody Hclean.
  destruct (retry_loop_succeeds self url (direct_attempt world self url) proxy_ok
              [DirectFetch url] [DirectFetch url] (Some body) Hdelay
              j (Z.to_nat (max_retries self)) 0 s Hj eq_refl Hok)
    as (s' & new & Hrun & Htr & Hck & Hq & Hv).
  - intros s0 Hi Hs0.
    destruct (get_proxy_ok _ Hi) as (proxy & pm' & Hg & Hok').
    unfold direct_attempt, bind, tick, call_get_proxy. simpl. rewrite Hg. simpl.
    unfold lift.
    destruct (Hdead (clock s0) (get_random_user_agent world self (clock s0)) proxy
                (timeout self) Hs0) as [e He].
    rewrite He. exists e. eexists.
    exists [RequestsGet url (get_random_user_agent world self (clock s0)) proxy
              (timeout self)].
    repeat split; try reflexivity. exact Hok'.
  - intros s0 Hi Hs0.
    destruct (get_proxy_ok _ Hi) as (proxy & pm' & Hg & Hok').
    unfold direct_attempt, bind, tick, call_get_proxy. simpl. rewrite Hg. simpl.
    unfold lift. rewrite Hs0, Hbody, Hclean. eexists.
    exists [RequestsGet url (get_random_user_agent world self (clock s + j)) proxy
              (timeout self)].
    repeat split; reflexivity.
  - rewrite concat_repeat_singleton in Hv.
    exists s', new. split; [exact Hrun|]. repeat split; try assumption.
    + unfold sleeps. rewrite Hq. apply waits_of_retries.
    + unfold direct_requests. rewrite Hv. apply direct_of_direct.
    + unfold browser_visits. rewrite Hv. apply no_browser_in_direct.
    + unfold escalations. rewrite Hv.
      now rewrite no_escalation_in_repeat by discriminate.
Qed.

Lemma direct_fetch_returns_first_response_witness :
  exists s' new,
    _make_request_with_retry flaky_world default_engine "https://example.org/p" false
      (initial_state default_proxy_manager)
    = (inr (Some "<html>content</html>"), s') /\
    trace s' = (trace (initial_state default_proxy_manager) ++ new)%list /\
    clock s' = (clock (initial_state default_proxy_manager) + 3)%nat /\
    sleeps new = [2; 4] /\
    direct_requests new = repeat "https://example.org/p" 3 /\
    browser_visits new = [] /\
    escalations new = 0%nat.
Proof.
  apply (direct_fetch_returns_first_response flaky_world default_engine
           "https://example.org/p" (initial_state default_proxy_manager) 2
           "<html>content</html>").
  - simpl. lia.
  - simpl. lia.
  - left. reflexivity.
  - intros t ua p tm Ht. simpl in Ht.
    destruct t as [|[|t]]; [eexists; reflexivity|eexists; reflexivity|lia].
  - intros ua p tm. reflexivity.
  - vm_compute. reflexivity.
Defined.

(** X6.  In browser mode, a page that triggers the detector is handed to the
    operator, once, and what the browser shows after the operator's answer
    is returned in place of the challenge page; no retry is spent. *)
Theorem browser_challenge_is_handed_to_operator :
  forall world self url s page content,
  1 <= max_retries self ->
  proxy_ok (proxy_manager s) ->
  (forall p ua, browser_page_source world (clock s) url p ua = inr page) ->
  _check_for_captcha page = true ->
  operator_page_source world (clock s) = inr content ->
  exists s' new,
    _make_request_with_retry world self url true s = (inr (Some content), s') /\
    trace s' = (trace s ++ new)%list /\
    clock s' = S (clock s) /\
    operator_prompts new = 1%nat /\
    browser_visits new = [url] /\
    sleeps new = [].
Proof.
  intros world self url s page content Hmax Hok Hpage Hcaptcha Hoperator.
  destruct (get_proxy_ok _ Hok) as (proxy & pm' & Hg & _).
  unfold _make_request_with_retry, make_request_browser, range.
  destruct (Z.to_nat (max_retries self)) as [|m] eqn:Hm; [lia|].
  cbn [seq map retry_loop].
  unfold browser_attempt, bind, tick, call_get_proxy. simpl. rewrite Hg. simpl.
  unfold lift. rewrite Hpage, Hcaptcha.
  unfold _handle_captcha, bind, emit, lift. simpl. rewrite Hoperator.
  unfold ret. eexists.
  exists [BrowserGoto url proxy (get_random_user_agent world self (clock s));
          Log WARNING MsgCaptchaManual; OperatorPrompt].
  split; [reflexivity|]. split; [|repeat split; reflexivity].
  simpl. now rewrite <- !app_assoc.
Qed.

Lemma browser_challenge_is_handed_to_operator_witness :
  exists s' new,
    _make_request_with_retry gated_world default_engine "https://example.org/p" true
      (initial_state default_proxy_manager)
    = (inr (Some "<html>solved</html>"), s') /\
    trace s' = (trace (initial_state default_proxy_manager) ++ new)%list /\
    clock s' = S (clock (initial_state default_proxy_manager)) /\
    operator_prompts new = 1%nat /\
    browser_visits new = ["https://example.org/p"] /\
    sleeps new = [].
Proof.
  apply (browser_challenge_is_handed_to_operator gated_world default_engine
           "https://example.org/p" (initial_state default_proxy_manager)
           "Are you a robot?" "<html>solved</html>").
  - simpl. lia.
  - left. reflexivity.
  - intros p ua. reflexivity.
  - vm_compute. reflexivity.
  - reflexivity.
Defined.

(** X7.  With [max_retries] zero or negative the loop has no iteration: no
    request is made, nothing is logged, and the fetch returns [None]. *)
Theorem no_retries_means_no_attempt : forall world self url use_browser s,
  max_retries self <= 0 ->
  _make_request_with_retry world self url use_browser s = (inr None, s).
Proof.
  intros world self url use_browser s Hmax.
  unfold _make_request_with_retry, make_request_browser, range.
  replace (Z.to_nat (max_retries self)) with 0%nat by lia.
  now destruct use_browser.
Qed.

Lemma no_retries_means_no_attempt_witness :
  _make_request_with_retry challenge_world (mkEngine 0 30 2 [] []) "u" false
    (initial_state default_proxy_manager)
  = (inr None, initial_state default_proxy_manager).
Proof.
  apply (no_retries_means_no_attempt challenge_world (mkEngine 0 30 2 [] []) "u" false
           (initial_state default_proxy_manager)).
  simpl. lia.
Defined.

Lemma flat_map_repeat_nil : forall (A B : Type) (f : A -> list B) x n,
  f x = [] -> flat_map f (repeat x n) = [].
Proof.
  intros A B f x n H. induction n as [|n IH]; [reflexivity|].
  simpl. now rewrite H, IH.
Qed.

Lemma flat_map_repeat_one : forall (A B : Type) (f : A -> list B) x y n,
  f x = [y] -> flat_map f (repeat x n) = repeat y n.
Proof.
  intros A B f x y n H. induction n as [|n IH]; [reflexivity|].
  simpl. now rewrite H, IH.
Qed.

Lemma escalations_of_repeat : forall n,
  List.length (filter (fun st => match st with Escalation => true | _ => false end)
                 (repeat Escalation n)) = n.
Proof.
  induction n as [|n IH]; [reflexivity|]. simpl. now rewrite IH.
Qed.

(** Whatever the world answers, one browser attempt visits [url] at most
    once and asks for nothing else. *)
Lemma browser_attempt_any : forall world self url s,
  exists r s1 ev b,
    browser_attempt world self url s = (r, s1) /\
    trace s1 = (trace s ++ ev)%list /\
    fetch_view ev = repeat (BrowserFetch url) b /\ (b <= 1)%nat.
Proof.
  intros world self url s.
  unfold browser_attempt, bind, tick, call_get_proxy. simpl.
  destruct (get_proxy (proxy_manager s)) as [[e|proxy] pm'].
  - eexists. eexists. exists [], 0%nat. simpl. rewrite app_nil_r.
    repeat split; try reflexivity; try lia.
  - simpl. unfold lift.
    destruct (browser_page_source world (clock s) url proxy
                (get_random_user_agent world self (clock s))) as [e|page_source].
    + eexists. eexists.
      exists [BrowserGoto url proxy (get_random_user_agent world self (clock s))], 1%nat.
      repeat split; try reflexivity; try lia.
    + destruct (_check_for_captcha page_source).
      * unfold _handle_captcha, bind, emit, lift. simpl.
        destruct (operator_page_source world (clock s)) as [e|content];
          eexists; eexists;
          exists [BrowserGoto url proxy (get_random_user_agent world self (clock s));
                  Log WARNING MsgCaptchaManual; OperatorPrompt], 1%nat;
          repeat split; try reflexivity; try lia;
          simpl; now rewrite <- !app_assoc.
      * eexists. eexists.
        exists [BrowserGoto url proxy (get_random_user_agent world self (clock s))], 1%nat.
        repeat split; try reflexivity; try lia.
Qed.

Lemma browser_loop_any : forall world self url,
  0 <= delay self ->
  forall m k s,
  exists r s' ev b,
    retry_loop self url (browser_attempt world self url) (map Z.of_nat (seq k m)) s
      = (inr r, s') /\
    trace s' = (trace s ++ ev)%list /\
    fetch_view ev = repeat (BrowserFetch url) b /\ (b <= m)%nat.
Proof.
  intros world self url Hdelay m.
  induction m as [|m IH]; intros k s.
  - exists None, s, [], 0%nat. simpl. unfold ret. rewrite app_nil_r.
    repeat split; try reflexivity; try lia.
  - destruct (browser_attempt_any world self url s)
      as (res & s1 & ev1 & b1 & Hrun & Htr1 & Hv1 & Hb1).
    cbn [seq map retry_loop]. rewrite Hrun.
    destruct res as [e|content].
    + rewrite bind_emit.
      destruct (Z.of_nat k <? max_retries self - 1).
      * rewrite bind_emit, bind_sleep by nia.
        match goal with
        | |- context [retry_loop _ _ _ _ ?s2] =>
            destruct (IH (S k) s2) as (r & s' & ev & b & Hloop & Htr & Hv & Hb)
        end.
        exists r, s'.
        exists (ev1 ++ [Log WARNING (MsgAttemptFailed (Z.of_nat k + 1) (max_retries self) e);
                        Log INFO (MsgWaiting (delay self * (Z.of_nat k + 1)));
                        Sleep (delay self * (Z.of_nat k + 1))] ++ ev)%list.
        exists (b1 + b)%nat. split; [exact Hloop|]. repeat split; try lia.
        -- rewrite Htr. simpl. rewrite Htr1. now rewrite <- !app_assoc.
        -- rewrite !fetch_view_app, Hv1, Hv. simpl. now rewrite repeat_app.
      * rewrite bind_emit. unfold ret.
        exists None. eexists.
        exists (ev1 ++ [Log WARNING (MsgAttemptFailed (Z.of_nat k + 1) (max_retries self) e);
                        Log ERROR (MsgFailedToRetrieve url (max_retries self))])%list.
        exists b1. split; [reflexivity|]. repeat split; try lia.
        -- simpl. rewrite Htr1. now rewrite <- !app_assoc.
        -- rewrite fetch_view_app, Hv1. simpl. now rewrite app_nil_r.
    + exists content, s1, ev1, b1. repeat split; try assumption; try lia.
Qed.

(** One direct attempt: at most one request, and either no switch of mode,
    or one switch followed by a fetch in browser mode that returns. *)
Lemma direct_attempt_any : forall world self url,
  0 <= delay self ->
  forall s,
  exists r s1 ev d e b,
    direct_attempt world self url s = (r, s1) /\
    trace s1 = (trace s ++ ev)%list /\
    fetch_view ev
    = (repeat (DirectFetch url) d ++ repeat Escalation e
       ++ repeat (BrowserFetch url) b)%list /\
    (d <= 1)%nat /\ (e <= 1)%nat /\ (b <= Z.to_nat (max_retries self))%nat /\
    (e = 1%nat -> exists c, r = inr c) /\
    (e = 0%nat -> b = 0%nat).
Proof.
  intros world self url Hdelay s.
  unfold direct_attempt, bind, tick, call_get_proxy. simpl.
  destruct (get_proxy (proxy_manager s)) as [[ex|proxy] pm'].
  - eexists. eexists. exists [], 0%nat, 0%nat, 0%nat. simpl. rewrite app_nil_r.
    repeat split; try reflexivity; try lia; discriminate.
  - simpl. unfold lift.
    destruct (requests_get world (clock s) url
                (get_random_user_agent world self (clock s)) proxy (timeout self))
      as [ex|response_text].
    + eexists. eexists.
      exists [RequestsGet url (get_random_user_agent world self (clock s)) proxy
                (timeout self)], 1%nat, 0%nat, 0%nat.
      repeat split; try reflexivity; try lia; discriminate.
    + destruct (_check_for_captcha response_text).
      * unfold emit. simpl. unfold make_request_browser, range.
        match goal with
        | |- context [retry_loop _ _ _ _ ?s2] =>
            destruct (browser_loop_any world self url Hdelay
                        (Z.to_nat (max_retries self)) 0 s2)
              as (r & s' & ev & b & Hloop & Htr & Hv & Hb)
        end.
        rewrite Hloop. exists (inr r), s'.
        exists ([RequestsGet url (get_random_user_agent world self (clock s)) proxy
                   (timeout self);
                 Log WARNING MsgCaptchaSwitchToBrowser] ++ ev)%list.
        exists 1%nat, 1%nat, b. split; [reflexivity|].
        repeat split; try lia.
        -- rewrite Htr. simpl. now rewrite <- !app_assoc.
        -- rewrite fetch_view_app, Hv. reflexivity.
        -- intros _. now exists r.
      * eexists. eexists.
        exists [RequestsGet url (get_random_user_agent world self (clock s)) proxy
                  (timeout self)], 1%nat, 0%nat, 0%nat.
        repeat split; try reflexivity; try lia; discriminate.
Qed.

Lemma direct_loop_any : forall world self url,
  0 <= delay self ->
  forall m k s,
  exists r s' ev d e b,
    retry_loop self url (direct_attempt world self url) (map Z.of_nat (seq k m)) s
      = (inr r, s') /\
    trace s' = (trace s ++ ev)%list /\
    fetch_view ev
    = (repeat (DirectFetch url) d ++ repeat Escalation e
       ++ repeat (BrowserFetch url) b)%list /\
    (d <= m)%nat /\ (e <= 1)%nat /\ (b <= Z.to_nat (max_retries self))%nat.
Proof.
  intros world self url Hdelay m.
  induction m as [|m IH]; intros k s.
  - exists None, s, [], 0%nat, 0%nat, 0%nat. simpl. unfold ret. rewrite app_nil_r.
    repeat split; try reflexivity; lia.
  - destruct (direct_attempt_any world self url Hdelay s)
      as (res & s1 & ev1 & d1 & e1 & b1 & Hrun & Htr1 & Hv1 & Hd1 & He1 & Hb1 & Hret & Hnob).
    cbn [seq map retry_loop]. rewrite Hrun.
    destruct res as [ex|content].
    + assert (e1 = 0%nat).
      { destruct e1 as [|[|e1]]; [reflexivity| |lia].
        destruct (Hret eq_refl) as [c Hc]. discriminate Hc. }
      subst e1. rewrite (Hnob eq_refl) in Hv1. simpl in Hv1. rewrite app_nil_r in Hv1.
      rewrite bind_emit.
      destruct (Z.of_nat k <? max_retries self - 1).
      * rewrite bind_emit, bind_sleep by nia.
        match goal with
        | |- context [retry_loop _ _ _ _ ?s2] =>
            destruct (IH (S k) s2)
              as (r & s' & ev & d & e & b & Hloop & Htr & Hv & Hd & He & Hb)
        end.
        exists r, s'.
        exists (ev1 ++ [Log WARNING (MsgAttemptFailed (Z.of_nat k + 1) (max_retries self) ex);
                        Log INFO (MsgWaiting (delay self * (Z.of_nat k + 1)));
                        Sleep (delay self * (Z.of_nat k + 1))] ++ ev)%list.
        exists (d1 + d)%nat, e, b. split; [exact Hloop|].
        repeat split; try lia.
        -- rewrite Htr. simpl. rewrite Htr1. now rewrite <- !app_assoc.
        -- rewrite !fetch_view_app, Hv1, Hv. simpl.
           now rewrite repeat_app, <- app_assoc.
      * rewrite bind_emit. unfold ret.
        exists None. eexists.
        exists (ev1 ++ [Log WARNING (MsgAttemptFailed (Z.of_nat k + 1) (max_retries self) ex);
                        Log ERROR (MsgFailedToRetrieve url (max_retries self))])%list.
        exists d1, 0%nat, 0%nat. split; [reflexivity|].
        repeat split; try lia.
        -- simpl. rewrite Htr1. now rewrite <- !app_assoc.
        -- rewrite fetch_view_app, Hv1. simpl. now rewrite !app_nil_r.
    + exists content, s1, ev1, d1, e1, b1. repeat split; try assumption; lia.
Qed.

(** Every fetch, in either mode. *)
Lemma fetch_run_any : forall world self url use_browser,
  0 <= delay self ->
  forall s,
  exists r s' ev d e b,
    _make_request_with_retry world self url use_browser s = (inr r, s') /\
    trace s' = (trace s ++ ev)%list /\
    fetch_view ev
    = (repeat (DirectFetch url) d ++ repeat Escalation e
       ++ repeat (BrowserFetch url) b)%list /\
    (d <= Z.to_nat (max_retries self))%nat /\ (e <= 1)%nat /\
    (b <= Z.to_nat (max_retries self))%nat /\
    (use_browser = true -> d = 0%nat /\ e = 0%nat).
Proof.
  intros world self url use_browser Hdelay s.
  unfold _make_request_with_retry, make_request_browser, range.
  destruct use_browser.
  - destruct (browser_loop_any world self url Hdelay (Z.to_nat (max_retries self)) 0 s)
      as (r & s' & ev & b & Hloop & Htr & Hv & Hb).
    exists r, s', ev, 0%nat, 0%nat, b. repeat split; try assumption; lia.
  - destruct (direct_loop_any world self url Hdelay (Z.to_nat (max_retries self)) 0 s)
      as (r & s' & ev & d & e & b & Hloop & Htr & Hv & Hd & He & Hb).
    exists r, s', ev, d, e, b. repeat split; try assumption; discriminate.
Qed.



(** X9.  One fetch is bounded work: at most [max_retries] direct requests,
    at most one switch to browser mode, at most [max_retries] visits of the
    browser, every one of them for the address asked; a fetch in browser
    mode makes no direct request and never switches. *)
Theorem fetch_is_bounded : forall world self url use_browser s,
  0 <= delay self ->
  exists new,
    trace (snd (_make_request_with_retry world self url use_browser s))
    = (trace s ++ new)%list /\
    (List.length (direct_requests new) <= Z.to_nat (max_retries self))%nat /\
    (List.length (browser_visits new) <= Z.to_nat (max_retries self))%nat /\
    (escalations new <= 1)%nat /\
    Forall (eq url) (direct_requests new) /\
    Forall (eq url) (browser_visits new) /\
    (use_browser = true -> direct_requests new = [] /\ escalations new = 0%nat).
Proof.
  intros world self url use_browser s Hdelay.
  destruct (fetch_run_any world self url use_browser Hdelay s)
    as (r & s' & ev & d & e & b & Hrun & Htr & Hv & Hd & He & Hb & Hmode).
  exists ev. rewrite Hrun. split; [exact Htr|].
  assert (Hdirect : direct_requests ev = repeat url d).
  { unfold direct_requests. rewrite Hv, !flat_map_app.
    rewrite (flat_map_repeat_one _ _ _ (DirectFetch url) url) by reflexivity.
    rewrite !flat_map_repeat_nil by reflexivity. now rewrite !app_nil_r. }
  assert (Hbrowser : browser_visits ev = repeat url b).
  { unfold browser_visits. rewrite Hv, !flat_map_app.
    rewrite (flat_map_repeat_one _ _ _ (BrowserFetch url) url) by reflexivity.
    now rewrite !flat_map_repeat_nil by reflexivity. }
  assert (Hesc : escalations ev = e).
  { unfold escalations. rewrite Hv, !filter_app, !length_app.
    rewrite (no_escalation_in_repeat (DirectFetch url)) by discriminate.
    rewrite (no_escalation_in_repeat (BrowserFetch url)) by discriminate.
    rewrite escalations_of_repeat. simpl. lia. }
  rewrite Hdirect, Hbrowser, Hesc, !repeat_length.
  repeat split; try assumption.
  - apply Forall_forall. intros x Hx. now apply repeat_spec in Hx.
  - apply Forall_forall. intros x Hx. now apply repeat_spec in Hx.
  - destruct (Hmode H) as [-> _]. reflexivity.
  - now destruct (Hmode H) as [_ ->].
Qed.

Lemma fetch_is_bounded_witness :
  exists new,
    trace (snd (_make_request_with_retry challenge_world default_engine "u" false
                  (initial_state default_proxy_manager)))
    = (trace (initial_state default_proxy_manager) ++ new)%list /\
    (List.length (direct_requests new) <= 3)%nat /\
    (List.length (browser_visits new) <= 3)%nat /\
    (escalations new <= 1)%nat /\
    Forall (eq "u") (direct_requests new) /\
    Forall (eq "u") (browser_visits new) /\
    (false = true -> direct_requests new = [] /\ escalations new = 0%nat).
Proof.
  apply (fetch_is_bounded challenge_world default_engine "u" false
           (initial_state default_proxy_manager)).
  simpl. lia.
Defined.

(** X10.  With a negative delay and at least two attempts allowed, the first
    failed attempt is the last: the wait that should follow it raises
    [ValueError], which leaves the function after one attempt and without
    any wait. *)
Theorem negative_delay_aborts_after_first_failure :
  forall world self url use_browser s,
  delay self < 0 ->
  2 <= max_retries self ->
  every_attempt_fails world (clock s) 1 ->
  exists s' new,
    _make_request_with_retry world self url use_browser s = (inl ValueError, s') /\
    trace s' = (trace s ++ new)%list /\
    clock s' = S (clock s) /\
    failed_attempts new = [1] /\
    sleeps new = [].
Proof.
  intros world self url use_browser s Hdelay Hmax Hdead.
  assert (Hbody : attempt_fails_quietly
                    (if use_browser then browser_attempt world self url
                     else direct_attempt world self url) s).
  { destruct use_browser.
    - apply browser_attempt_fails. intros u p ua. apply (Hdead (clock s)). lia.
    - apply direct_attempt_fails. intros u ua p tm. apply (Hdead (clock s)). lia. }
  destruct Hbody as (e & s1 & ev & Hrun & Hck & Htr & Hq).
  unfold _make_request_with_retry, make_request_browser, range.
  destruct (Z.to_nat (max_retries self)) as [|m] eqn:Hm; [lia|].
  assert (Hstep : forall body, body s = (inl e, s1) ->
    exists s' new,
      retry_loop self url body (map Z.of_nat (seq 0 (S m))) s = (inl ValueError, s') /\
      trace s' = (trace s ++ new)%list /\ clock s' = S (clock s) /\
      failed_attempts new = [1] /\ sleeps new = []).
  { intros body Hb. cbn [seq map retry_loop]. rewrite Hb, bind_emit.
    destruct (Z.ltb_spec (Z.of_nat 0) (max_retries self - 1)) as [_|Hbad]; [|lia].
    rewrite bind_emit. unfold bind, sleep.
    destruct (Z.ltb_spec (delay self * (Z.of_nat 0 + 1)) 0) as [_|Hbad]; [|lia].
    unfold raise. eexists.
    exists (ev ++ [Log WARNING (MsgAttemptFailed (Z.of_nat 0 + 1) (max_retries self) e);
                   Log INFO (MsgWaiting (delay self * (Z.of_nat 0 + 1)))])%list.
    split; [reflexivity|]. repeat split.
    - simpl. rewrite Htr. now rewrite <- !app_assoc.
    - exact Hck.
    - unfold failed_attempts. rewrite retry_view_app, Hq. reflexivity.
    - unfold sleeps. rewrite retry_view_app, Hq. reflexivity. }
  destruct use_browser; now apply Hstep.
Qed.

Lemma negative_delay_aborts_after_first_failure_witness :
  exists s' new,
    _make_request_with_retry dead_world (mkEngine 3 30 (-1) [] []) "u" true
      (initial_state default_proxy_manager) = (inl ValueError, s') /\
    trace s' = (trace (initial_state default_proxy_manager) ++ new)%list /\
    clock s' = S (clock (initial_state default_proxy_manager)) /\
    failed_attempts new = [1] /\
    sleeps new = [].
Proof.
  apply (negative_delay_aborts_after_first_failure dead_world
           (mkEngine 3 30 (-1) [] []) "u" true (initial_state default_proxy_manager)).
  - simpl. lia.
  - simpl. lia.
  - intros t Ht. split.
    + intros u ua p tm. exists (OtherError "timeout"). reflexivity.
    + intros u p ua. exists (OtherError "timeout"). reflexivity.
Defined.

(** ** The extraction routines *)

(** X11.  For each platform, when the fetch gives nothing ([None] or an
    empty page), the routine returns the empty list straight away: the page
    is not parsed and no selector is applied, whatever the parser would do. *)
Theorem nothing_fetched_nothing_extracted :
  forall world dom self p param s html s1,
  _make_request_with_retry world self (page_url self p param) true
    (snd (emit (Log INFO (MsgScraping (platform_name p) param)) s))
    = (inr html, s1) ->
  truthy_opt html = false ->
  scrape world dom self p param s = (inr [], s1).
Proof.
  intros world dom self p param s html s1 Hfetch Hempty.
  rewrite scrape_unfold.
  set (announce := Log INFO (MsgScraping (platform_name p) param)) in *.
  assert (Hemit : emit announce s = (inr tt, snd (emit announce s))) by reflexivity.
  unfold bind at 1. rewrite Hemit.
  unfold bind at 1. rewrite Hfetch, Hempty. reflexivity.
Qed.

Lemma nothing_fetched_nothing_extracted_witness :
  scrape dead_world
    (sample_dom [(PLATFORM_SELECTORS.reddit_posts, [post_without_counts])])
    default_engine reddit "affiliatemarketing" (initial_state default_proxy_manager)
  = (inr [],
     snd (_make_request_with_retry dead_world default_engine
            (page_url default_engine reddit "affiliatemarketing") true
            (snd (emit (Log INFO (MsgScraping (platform_name reddit) "affiliatemarketing"))
                    (initial_state default_proxy_manager))))).
Proof.
  apply (nothing_fetched_nothing_extracted dead_world
           (sample_dom [(PLATFORM_SELECTORS.reddit_posts, [post_without_counts])])
           default_engine reddit "affiliatemarketing"
           (initial_state default_proxy_manager) None).
  - vm_compute. reflexivity.
  - reflexivity.
Defined.

(** X12.  For each platform, when the primary container selector matches at
    least one element, the fallback selector is not applied: extraction runs
    on the primary matches, and nothing is logged in between. *)
Theorem primary_matches_are_used : forall world dom self p param s html s1 c cs,
  _make_request_with_retry world self (page_url self p param) true
    (snd (emit (Log INFO (MsgScraping (platform_name p) param)) s))
    = (inr (Some html), s1) ->
  PyStr.truthy html = true ->
  soup_select dom (BeautifulSoup dom html) (primary_selector p) = inr (c :: cs) ->
  scrape world dom self p param s = extract_loop dom self p param (c :: cs) s1.
Proof.
  intros world dom self p param s html s1 c cs Hfetch Htruthy Hprimary.
  rewrite scrape_unfold.
  set (announce := Log INFO (MsgScraping (platform_name p) param)) in *.
  assert (Hemit : emit announce s = (inr tt, snd (emit announce s))) by reflexivity.
  unfold bind at 1. rewrite Hemit.
  unfold bind at 1. rewrite Hfetch.
  cbn [truthy_opt get_default]. rewrite Htruthy. cbn [negb].
  unfold select_with_fallback.
  unfold bind at 1. unfold bind at 1. unfold lift at 1. rewrite Hprimary.
  reflexivity.
Qed.

Lemma primary_matches_are_used_witness :
  scrape challenge_world
    (sample_dom [(PLATFORM_SELECTORS.amazon_products, [product_without_rating]);
                 (PLATFORM_SELECTORS.amazon_fallback_products, [product_broken])])
    default_engine amazon "electronics" (initial_state default_proxy_manager)
  = extract_loop
      (sample_dom [(PLATFORM_SELECTORS.amazon_products, [product_without_rating]);
                   (PLATFORM_SELECTORS.amazon_fallback_products, [product_broken])])
      default_engine amazon "electronics" [product_without_rating]
      (snd (_make_request_with_retry challenge_world default_engine
              (page_url default_engine amazon "electronics") true
              (snd (emit (Log INFO (MsgScraping (platform_name amazon) "electronics"))
                      (initial_state default_proxy_manager))))).
Proof.
  apply (primary_matches_are_used challenge_world
           (sample_dom [(PLATFORM_SELECTORS.amazon_products, [product_without_rating]);
                        (PLATFORM_SELECTORS.amazon_fallback_products, [product_broken])])
           default_engine amazon "electronics"
           (initial_state default_proxy_manager) "<html>content</html>").
  - vm_compute. reflexivity.
  - reflexivity.
  - reflexivity.
Defined.

(** One step of a [try] body that returned. *)
Ltac step_parse H :=
  match type of H with
  | ebind ?r _ = inr _ =>
      let E := fresh "E" in
      destruct r as [?|?] eqn:E; cbn [ebind] in H; [discriminate H|]
  end.

Lemma parse_item_layout : forall dom self p param container r,
  parse_item dom self p param container = inr r ->
  map fst r = record_layout p /\
  dict_get "platform" r = Some (VStr (platform_name p)) /\
  dict_get "type" r = Some (VStr (record_type p)).
Proof.
  intros dom self p param container r H.
  destruct p; unfold parse_item, parse_tiktok_item, parse_amazon_item,
    parse_reddit_item, parse_youtube_item in H;
    repeat step_parse H; injection H as <-; repeat split.
Qed.

Lemma parsed_forall : forall dom (parse : Tag dom -> exn + record) (P : record -> Prop),
  (forall item r, parse item = inr r -> P r) ->
  forall items, Forall P (parsed dom parse items).
Proof.
  intros dom parse P HP items.
  induction items as [|item rest IH]; [constructor|].
  unfold parsed in *. simpl. destruct (parse item) as [e|r] eqn:E; [exact IH|].
  simpl. constructor; [now apply (HP item)|exact IH].
Qed.

(** What a routine returns is what its loop parsed from some list of
    containers. *)
Lemma scrape_result_is_parsed : forall world dom self p param s data s',
  scrape world dom self p param s = (inr data, s') ->
  exists items, data = parsed dom (parse_item dom self p param) items.
Proof.
  intros world dom self p param s data s' H.
  rewrite scrape_unfold in H.
  match type of H with
  | bind ?m ?f s = _ =>
      destruct (bind_result_cases m f s)
        as [(e & s0 & _ & Hb) | (u & s0 & _ & Hb)]; rewrite Hb in H; clear Hb
  end; [discriminate H|].
  match type of H with
  | bind ?m ?f s0 = _ =>
      destruct (bind_result_cases m f s0)
        as [(e & s1 & _ & Hb) | (html & s1 & _ & Hb)]; rewrite Hb in H; clear Hb
  end; [discriminate H|].
  destruct (negb (truthy_opt html)).
  - injection H as <- _. now exists [].
  - match type of H with
    | bind ?m ?f s1 = _ =>
        destruct (bind_result_cases m f s1)
          as [(e & s2 & _ & Hb) | (containers & s2 & _ & Hb)]; rewrite Hb in H; clear Hb
    end; [discriminate H|].
    unfold extract_loop in H.
    match type of H with
    | for_each_item _ _ _ ?items _ _ = _ =>
        destruct (for_each_item_spec dom (platform_name p)
                    (parse_item dom self p param) items [] s2) as (s3 & Hrun & _);
        rewrite Hrun in H; injection H as <- _; now exists items
    end.
Qed.

(** X13.  Every record a routine returns has the keys of its platform, in
    the order of the dict literal, and carries the platform's name and record
    type: no field of another platform ever appears in it. *)
Theorem records_have_platform_layout : forall world dom self p param s data s',
  scrape world dom self p param s = (inr data, s') ->
  Forall (fun r => map fst r = record_layout p /\
                   dict_get "platform" r = Some (VStr (platform_name p)) /\
                   dict_get "type" r = Some (VStr (record_type p))) data.
Proof.
  intros world dom self p param s data s' H.
  destruct (scrape_result_is_parsed world dom self p param s data s' H) as [items ->].
  apply parsed_forall. intros item r. apply parse_item_layout.
Qed.

Lemma records_have_platform_layout_witness :
  Forall (fun r => map fst r = record_layout amazon /\
                   dict_get "platform" r = Some (VStr (platform_name amazon)) /\
                   dict_get "type" r = Some (VStr (record_type amazon)))
    [[("platform", VStr "amazon"); ("type", VStr "product");
      ("category", VStr "electronics"); ("name", VStr "Kettle");
      ("price", VStr "$19.99"); ("rating", VStr "N/A")]].
Proof.
  apply (records_have_platform_layout challenge_world
           (sample_dom [(PLATFORM_SELECTORS.amazon_fallback_products,
                         [product_without_rating])])
           default_engine amazon "electronics" (initial_state default_proxy_manager)
           _ (snd (scrape challenge_world
                     (sample_dom [(PLATFORM_SELECTORS.amazon_fallback_products,
                                   [product_without_rating])])
                     default_engine amazon "electronics"
                     (initial_state default_proxy_manager)))).
  vm_compute. reflexivity.
Defined.










(** X16.  The extraction loop accounts for every container: it returns the
    records of those that parse, in the order of the page, logs exactly one
    parsing warning for each of the others and nothing else, and leaves the
    proxy cursor and the clock alone; it never raises. *)
Theorem every_container_is_accounted_for : forall dom platform parse items data s,
  exists s' warnings,
    for_each_item dom platform parse items data s
      = (inr (data ++ parsed dom parse items)%list, s') /\
    proxy_manager s' = proxy_manager s /\
    clock s' = clock s /\
    trace s' = (trace s ++ warnings)%list /\
    Forall (fun e => exists ex, e = Log WARNING (MsgErrorParsing platform ex)) warnings /\
    (List.length warnings + List.length (parsed dom parse items)
     = List.length items)%nat.
Proof.
  intros dom platform parse items.
  induction items as [|item rest IH]; intros data s.
  - exists s, []. simpl. unfold ret. rewrite !app_nil_r.
    repeat split; try reflexivity. constructor.
  - cbn [for_each_item parsed flat_map].
    destruct (parse item) as [e|r] eqn:E.
    + unfold bind at 1, emit.
      destruct (IH data (mkState (proxy_manager s) (clock s)
                           (trace s ++ [Log WARNING (MsgErrorParsing platform e)])))
        as (s' & warnings & Hrun & Hpm & Hck & Htr & Hall & Hlen).
      exists s', (Log WARNING (MsgErrorParsing platform e) :: warnings).
      fold (parsed dom parse rest). rewrite Hrun.
      repeat split; try assumption.
      * rewrite Htr. simpl. now rewrite <- app_assoc.
      * constructor; [now exists e|exact Hall].
      * simpl. rewrite Hlen. reflexivity.
    + destruct (IH (data ++ [r])%list s)
        as (s' & warnings & Hrun & Hpm & Hck & Htr & Hall & Hlen).
      exists s', warnings. fold (parsed dom parse rest).
      rewrite Hrun, <- app_assoc. simpl.
      repeat split; try assumption. rewrite <- Hlen. lia.
Qed.

Lemma replace_char_removes : forall a b s,
  a <> b -> PyStr.has_char a (PyStr.replace_char a b s) = false.
Proof.
  intros a b s Hab. induction s as [|c s IH]; [reflexivity|].
  simpl. rewrite IH, orb_false_r.
  destruct (Ascii.eqb c a) eqn:Hc.
  - apply Ascii.eqb_neq. congruence.
  - exact Hc.
Qed.

(** X17.  The address [scrape_youtube_videos] fetches never contains a
    space, whatever the query: every space of the query has become a ['+']. *)
Theorem youtube_search_url_has_no_space : forall self query,
  PyStr.has_char " " (page_url self youtube query) = false /\
  page_url self youtube query
  = "https://www.youtube.com/results?search_query=" ++ PyStr.replace_char " " "+" query /\
  String.length (PyStr.replace_char " " "+" query) = String.length query.
Proof.
  intros self query. split; [|split].
  - unfold page_url. rewrite has_char_app, replace_char_removes by discriminate.
    reflexivity.
  - reflexivity.
  - induction query as [|c q IH]; [reflexivity|]. simpl. now rewrite IH.
Qed.

(** ** The batch: tasks and results *)

(** X18.  A platform whose configuration says [enabled: false] contributes
    no task: the task list is the one of the configuration without it. *)
Theorem disabled_platform_adds_no_task : forall self self' before p after,
  platforms_config self = (before ++ p :: after)%list ->
  platforms_config self' = (before ++ after)%list ->
  p_enabled p = Some false ->
  scraping_tasks self = scraping_tasks self'.
Proof.
  intros self self' before p after Hcfg Hcfg' Hoff.
  unfold scraping_tasks, enabled_platforms. rewrite Hcfg, Hcfg', !filter_app.
  cbn [filter]. rewrite Hoff. reflexivity.
Qed.

Lemma disabled_platform_adds_no_task_witness :
  scraping_tasks
    (mkEngine 3 30 2 []
       [mkPlatform (Some "amazon") None None None None None None;
        mkPlatform (Some "reddit") (Some false) None None None None None;
        mkPlatform (Some "youtube") None None None None None None])
  = scraping_tasks
      (mkEngine 3 30 2 []
         [mkPlatform (Some "amazon") None None None None None None;
          mkPlatform (Some "youtube") None None None None None None]).
Proof.
  apply (disabled_platform_adds_no_task
           (mkEngine 3 30 2 []
              [mkPlatform (Some "amazon") None None None None None None;
               mkPlatform (Some "reddit") (Some false) None None None None None;
               mkPlatform (Some "youtube") None None None None None None])
           (mkEngine 3 30 2 []
              [mkPlatform (Some "amazon") None None None None None None;
               mkPlatform (Some "youtube") None None None None None None])
           [mkPlatform (Some "amazon") None None None None None None]
           (mkPlatform (Some "reddit") (Some false) None None None None None)
           [mkPlatform (Some "youtube") None None None None None None]);
    reflexivity.
Defined.

Lemma expand_platform_known : forall p t,
  In t (expand_platform p) ->
  In (fst t) ["tiktok"; "amazon"; "reddit"; "youtube"].
Proof.
  intros p t. unfold expand_platform.
  destruct (p_name p) as [n|]; [|intros []].
  destruct (String.eqb n "tiktok");
    [|destruct (String.eqb n "amazon");
      [|destruct (String.eqb n "reddit");
        [|destruct (String.eqb n "youtube"); [|intros []]]]];
    intro H; apply in_map_iff in H; destruct H as (x & <- & _); simpl; tauto.
Qed.

Lemma task_is_dispatched : forall world dom self t,
  In t (scraping_tasks self) ->
  In (fst t) ["tiktok"; "amazon"; "reddit"; "youtube"] /\
  exists job, dispatch world dom self (fst t) (snd t) = Some job.
Proof.
  intros world dom self t Hin.
  unfold scraping_tasks in Hin. apply in_flat_map in Hin.
  destruct Hin as (p & _ & Hin).
  pose proof (expand_platform_known p t Hin) as Hknown.
  split; [exact Hknown|].
  unfold dispatch. simpl in Hknown.
  destruct Hknown as [<-|[<-|[<-|[<-|[]]]]]; simpl; eexists; reflexivity.
Qed.

(** X19.  Every task of the batch names one of the four platforms, whatever
    the configuration (entries with another name or without a name give no
    task), so each task is submitted to a routine: the [continue] branch of
    the submission loop is never taken. *)
Theorem every_task_has_a_routine : forall world dom self t,
  In t (scraping_tasks self) ->
  In (fst t) ["tiktok"; "amazon"; "reddit"; "youtube"] /\
  exists job, dispatch world dom self (fst t) (snd t) = Some job.
Proof.
  intros world dom self t Hin. now apply task_is_dispatched.
Qed.

Lemma every_task_has_a_routine_witness :
  In (fst ("amazon", "electronics")) ["tiktok"; "amazon"; "reddit"; "youtube"] /\
  exists job,
    dispatch dead_world (sample_dom [])
      (mkEngine 3 30 2 []
         [mkPlatform (Some "amazon") None None None None None None;
          mkPlatform (Some "facebook") None None None None None None])
      (fst ("amazon", "electronics")) (snd ("amazon", "electronics")) = Some job.
Proof.
  apply (every_task_has_a_routine dead_world (sample_dom [])
           (mkEngine 3 30 2 []
              [mkPlatform (Some "amazon") None None None None None None;
               mkPlatform (Some "facebook") None None None None None None])
           ("amazon", "electronics")).
  simpl. tauto.
Defined.

Lemma submit_all_one_future_per_task : forall world dom self tasks futures s,
  (forall t, In t tasks -> exists job, dispatch world dom self (fst t) (snd t) = Some job) ->
  exists futures' s',
    submit_all world dom self tasks futures s = (inr futures', s') /\
    List.length futures' = (List.length futures + List.length tasks)%nat.
Proof.
  intros world dom self tasks.
  induction tasks as [|[platform param] rest IH]; intros futures s Hall.
  - exists futures, s. split; [reflexivity|]. simpl. lia.
  - cbn [submit_all].
    destruct (Hall (platform, param) (or_introl eq_refl)) as [job Hjob].
    simpl in Hjob. rewrite Hjob.
    unfold bind at 1, submit. destruct (job s) as [r s1].
    rewrite bind_sleep by lia.
    match goal with
    | |- context [submit_all _ _ _ rest ?fs ?s2] =>
        destruct (IH fs s2) as (futures' & s' & Hrun & Hlen)
    end.
    + intros t Ht. apply Hall. now right.
    + exists futures', s'. split; [exact Hrun|].
      rewrite Hlen, length_app. simpl. lia.
Qed.

(** X20.  With at least one task and at least one worker, the batch runs a
    job for every task, never raises, and returns the records of the jobs
    that returned, in the order of submission; a job that raised adds
    nothing. *)
Theorem batch_returns_records_of_returned_jobs :
  forall world dom self max_workers s,
  0 < Z.min max_workers (Z.of_nat (List.length (scraping_tasks self))) ->
  exists futures s1 s',
    submit_all world dom self (scraping_tasks self) [] s = (inr futures, s1) /\
    List.length futures = List.length (scraping_tasks self) /\
    scrape_all_platforms world dom self max_workers s
    = (inr (flat_map (fun future => match future with
                                    | inr result => result
                                    | inl _ => []
                                    end) futures), s').
Proof.
  intros world dom self max_workers s Hpool.
  destruct (submit_all_one_future_per_task world dom self (scraping_tasks self) [] s)
    as (futures & s1 & Hsubmit & Hlen).
  { intros t Ht. now apply (task_is_dispatched world dom self t). }
  destruct (collect_spec futures [] s1) as (s2 & Hcollect).
  exists futures, s1. eexists. split; [exact Hsubmit|]. split; [exact Hlen|].
  unfold scrape_all_platforms. cbv zeta.
  destruct (Z.leb_spec (Z.min max_workers (Z.of_nat (List.length (scraping_tasks self)))) 0)
    as [Hbad|_]; [lia|].
  unfold bind at 1. rewrite Hsubmit.
  unfold bind at 1. rewrite Hcollect.
  rewrite bind_emit. reflexivity.
Qed.

Lemma batch_returns_records_of_returned_jobs_witness :
  exists futures s1 s',
    submit_all challenge_world
      (sample_dom [(PLATFORM_SELECTORS.amazon_products, [product_without_rating])])
      (mkEngine 3 30 2 [] [mkPlatform (Some "amazon") None None None None None None])
      (scraping_tasks
         (mkEngine 3 30 2 [] [mkPlatform (Some "amazon") None None None None None None]))
      [] (initial_state default_proxy_manager) = (inr futures, s1) /\
    List.length futures
    = List.length
        (scraping_tasks
           (mkEngine 3 30 2 [] [mkPlatform (Some "amazon") None None None None None None])) /\
    scrape_all_platforms challenge_world
      (sample_dom [(PLATFORM_SELECTORS.amazon_products, [product_without_rating])])
      (mkEngine 3 30 2 [] [mkPlatform (Some "amazon") None None None None None None])
      5 (initial_state default_proxy_manager)
    = (inr (flat_map (fun future => match future with
                                    | inr result => result
                                    | inl _ => []
                                    end) futures), s').
Proof.
  apply (batch_returns_records_of_returned_jobs challenge_world
           (sample_dom [(PLATFORM_SELECTORS.amazon_products, [product_without_rating])])
           (mkEngine 3 30 2 [] [mkPlatform (Some "amazon") None None None None None None])
           5 (initial_state default_proxy_manager)).
  vm_compute. reflexivity.
Defined.

(** The batch of the witness, run: one task, one record. *)
Example one_platform_batch :
  fst (scrape_all_platforms challenge_world
         (sample_dom [(PLATFORM_SELECTORS.amazon_products, [product_without_rating])])
         (mkEngine 3 30 2 [] [mkPlatform (Some "amazon") None None None None None None])
         5 (initial_state default_proxy_manager))
  = inr [[("platform", VStr "amazon"); ("type", VStr "product");
          ("category", VStr "electronics"); ("name", VStr "Kettle");
          ("price", VStr "$19.99"); ("rating", VStr "N/A")]].
Proof. vm_compute. reflexivity. Qed.

(** * Properties of the trend analyzer *)

(** ** Dict updates *)

Lemma dict_get_set : forall (A : Type) (k k' : string) (v : A) d,
  dict_get k (dict_set k' v d) = if String.eqb k' k then Some v else dict_get k d.
Proof.
  intros A k k' v d. induction d as [|[k0 w] d IH]; simpl.
  - reflexivity.
  - destruct (String.eqb k0 k') eqn:E0.
    + apply String.eqb_eq in E0. subst k0. simpl.
      destruct (String.eqb k' k); reflexivity.
    + simpl. rewrite IH. destruct (String.eqb k0 k) eqn:E1; [|reflexivity].
      apply String.eqb_eq in E1. subst k0. now rewrite String.eqb_sym, E0.
Qed.

Lemma dict_update_cons : forall (A : Type) (d : list (string * A)) kv other,
  dict_update d (kv :: other) = dict_update (dict_set (fst kv) (snd kv) d) other.
Proof. reflexivity. Qed.

Lemma dict_update_get_untouched : forall (A : Type) (k : string) (other d : list (string * A)),
  dict_get k other = None ->
  dict_get k (dict_update d other) = dict_get k d.
Proof.
  intros A k other. induction other as [|[k0 v0] other IH]; intros d H; [reflexivity|].
  simpl in H. destruct (String.eqb k0 k) eqn:E; [discriminate|].
  rewrite dict_update_cons, IH by exact H. simpl.
  now rewrite dict_get_set, E.
Qed.

Lemma dict_update_keeps_keys : forall (A : Type) (k : string) (other d : list (string * A)),
  dict_get k d <> None ->
  dict_get k (dict_update d other) <> None.
Proof.
  intros A k other. induction other as [|[k0 v0] other IH]; intros d H; [exact H|].
  rewrite dict_update_cons. apply IH. simpl. rewrite dict_get_set.
  destruct (String.eqb k0 k); [discriminate|exact H].
Qed.

Lemma dict_get_not_in : forall (A : Type) (k : string) (d : list (string * A)),
  ~ In k (map fst d) -> dict_get k d = None.
Proof.
  intros A k d. induction d as [|[k0 v0] d IH]; intro H; [reflexivity|].
  simpl. destruct (String.eqb k0 k) eqn:E.
  - apply String.eqb_eq in E. subst k0. exfalso. apply H. now left.
  - apply IH. intro Hin. apply H. now right.
Qed.

Lemma dict_update_get_new : forall (A : Type) (k : string) (v : A) other d,
  NoDup (map fst other) ->
  dict_get k other = Some v ->
  dict_get k (dict_update d other) = Some v.
Proof.
  intros A k v other. induction other as [|[k0 v0] other IH]; intros d Hnd H;
    [discriminate|].
  simpl in Hnd. inversion Hnd as [|? ? Hnot Hnd']; subst.
  rewrite dict_update_cons. simpl in H. simpl fst. simpl snd.
  destruct (String.eqb k0 k) eqn:E.
  - apply String.eqb_eq in E. subst k0. injection H as ->.
    rewrite dict_update_get_untouched by now apply dict_get_not_in.
    now rewrite dict_get_set, String.eqb_refl.
  - now apply IH.
Qed.

(** ** Loading plugins *)

(** The database after the loop is the database updated in turn with the
    programs of each network that has some. *)
Lemma load_networks_database : forall fs plugin_dir networks db log,
  fst (load_networks fs plugin_dir networks db log)
  = fold_left (fun acc network =>
                 match plugin_programs fs plugin_dir network with
                 | Some programs => dict_update acc programs
                 | None => acc
                 end) networks db.
Proof.
  intros fs plugin_dir networks.
  induction networks as [|network rest IH]; intros db log; [reflexivity|].
  cbn [load_networks fold_left]. unfold plugin_programs at 2.
  destruct (get_default (n_enabled network) false); [|apply IH].
  cbv zeta.
  destruct (path_exists fs
              (os_path_join plugin_dir (format_name (n_name network) ++ ".py")));
    [|apply IH].
  destruct (exec_module fs (n_name network)
              (os_path_join plugin_dir (format_name (n_name network) ++ ".py")))
    as [e|[programs|]]; apply IH.
Qed.

(** X21.  When plugins are not enabled (the default) or the plugin directory
    does not exist, [_load_plugins] loads nothing: the affiliate database is
    the one it started from, and no module is run. *)
Theorem plugins_off_leaves_database : forall fs cfg db,
  get_default (pl_enabled cfg) false = false \/
  path_exists fs (get_default (pl_directory cfg) "plugins") = false ->
  fst (_load_plugins fs cfg db) = db.
Proof.
  intros fs cfg db [H|H]; unfold _load_plugins; cbv zeta.
  - now rewrite H.
  - destruct (negb (get_default (pl_enabled cfg) false)); [reflexivity|].
    now rewrite H.
Qed.

Lemma plugins_off_leaves_database_witness :
  fst (_load_plugins sample_fs
         (mkPlugins None None (Some [mkNetwork (Some true) (Some "good")]))
         AFFILIATE_DB) = AFFILIATE_DB.
Proof.
  apply (plugins_off_leaves_database sample_fs
           (mkPlugins None None (Some [mkNetwork (Some true) (Some "good")]))
           AFFILIATE_DB).
  left. reflexivity.
Defined.

(** X22.  A configured network that is disabled, whose file does not exist,
    whose module raises while it is loaded or has no [AFFILIATE_PROGRAMS]
    changes nothing in the database: the other networks are loaded as if it
    were not configured. *)
Theorem failing_plugin_is_skipped : forall fs plugin_dir before network after db log,
  plugin_programs fs plugin_dir network = None ->
  fst (load_networks fs plugin_dir (before ++ network :: after) db log)
  = fst (load_networks fs plugin_dir (before ++ after) db log).
Proof.
  intros fs plugin_dir before network after db log H.
  rewrite !load_networks_database, !fold_left_app. simpl. now rewrite H.
Qed.

Lemma failing_plugin_is_skipped_witness :
  fst (load_networks sample_fs "plugins"
         ([] ++ mkNetwork (Some true) (Some "bad") :: [mkNetwork (Some true) (Some "good")])
         AFFILIATE_DB [])
  = fst (load_networks sample_fs "plugins"
           ([] ++ [mkNetwork (Some true) (Some "good")]) AFFILIATE_DB []).
Proof.
  apply (failing_plugin_is_skipped sample_fs "plugins" []
           (mkNetwork (Some true) (Some "bad")) [mkNetwork (Some true) (Some "good")]
           AFFILIATE_DB []).
  reflexivity.
Defined.

Lemma fold_update_keeps_keys : forall fs plugin_dir niche networks db,
  dict_get niche db <> None ->
  dict_get niche
    (fold_left (fun acc network =>
                  match plugin_programs fs plugin_dir network with
                  | Some programs => dict_update acc programs
                  | None => acc
                  end) networks db) <> None.
Proof.
  intros fs plugin_dir niche networks.
  induction networks as [|network rest IH]; intros db H; [exact H|].
  simpl. apply IH.
  destruct (plugin_programs fs plugin_dir network); [|exact H].
  now apply dict_update_keeps_keys.
Qed.

(** X23.  Plugins can replace the programs of a niche but never remove a
    niche: every niche of the database before [_load_plugins] is still in it
    afterwards. *)
Theorem plugins_never_remove_a_niche : forall fs cfg db niche,
  dict_get niche db <> None ->
  dict_get niche (fst (_load_plugins fs cfg db)) <> None.
Proof.
  intros fs cfg db niche H. unfold _load_plugins. cbv zeta.
  destruct (negb (get_default (pl_enabled cfg) false)); [exact H|].
  destruct (negb (path_exists fs (get_default (pl_directory cfg) "plugins")));
    [exact H|].
  rewrite load_networks_database. now apply fold_update_keeps_keys.
Qed.

Lemma plugins_never_remove_a_niche_witness :
  dict_get "Gaming" (fst (_load_plugins sample_fs sample_plugins AFFILIATE_DB)) <> None.
Proof.
  apply (plugins_never_remove_a_niche sample_fs sample_plugins AFFILIATE_DB "Gaming").
  vm_compute. discriminate.
Defined.

(** X24.  A niche that no loaded plugin defines keeps the programs it had
    before [_load_plugins]. *)
Theorem untouched_niche_keeps_programs : forall fs cfg db niche,
  (forall network programs,
     In network (get_default (pl_affiliate_networks cfg) []) ->
     plugin_programs fs (get_default (pl_directory cfg) "plugins") network
       = Some programs ->
     dict_get niche programs = None) ->
  dict_get niche (fst (_load_plugins fs cfg db)) = dict_get niche db.
Proof.
  intros fs cfg db niche H. unfold _load_plugins. cbv zeta.
  destruct (negb (get_default (pl_enabled cfg) false)); [reflexivity|].
  destruct (negb (path_exists fs (get_default (pl_directory cfg) "plugins")));
    [reflexivity|].
  rewrite load_networks_database.
  revert db H. generalize (get_default (pl_affiliate_networks cfg) []).
  intro networks. induction networks as [|network rest IH]; intros db H; [reflexivity|].
  simpl. rewrite IH.
  - destruct (plugin_programs fs (get_default (pl_directory cfg) "plugins") network)
      as [programs|] eqn:E; [|reflexivity].
    apply dict_update_get_untouched. apply (H network programs); [now left|exact E].
  - intros n programs Hin. apply H. now right.
Qed.

Lemma untouched_niche_keeps_programs_witness :
  dict_get "Fitness" (fst (_load_plugins sample_fs sample_plugins AFFILIATE_DB))
  = dict_get "Fitness" AFFILIATE_DB.
Proof.
  apply (untouched_niche_keeps_programs sample_fs sample_plugins AFFILIATE_DB "Fitness").
  intros network programs Hin Hp. simpl in Hin.
  destruct Hin as [<-|[<-|[]]]; vm_compute in Hp.
  - discriminate Hp.
  - injection Hp as <-. reflexivity.
Defined.

(** X25.  The programs of the last configured network win: a niche its
    module defines has, after [_load_plugins], the programs that module
    gives it, whatever the database and the earlier plugins said. *)
Theorem last_plugin_overrides : forall fs plugin_dir before network db log programs niche v,
  plugin_programs fs plugin_dir network = Some programs ->
  NoDup (map fst programs) ->
  dict_get niche programs = Some v ->
  dict_get niche (fst (load_networks fs plugin_dir (before ++ [network]) db log))
  = Some v.
Proof.
  intros fs plugin_dir before network db log programs niche v Hp Hnd Hv.
  rewrite load_networks_database, fold_left_app. simpl. rewrite Hp.
  now apply dict_update_get_new.
Qed.

Lemma last_plugin_overrides_witness :
  dict_get "Gaming"
    (fst (load_networks sample_fs "plugins"
            ([mkNetwork (Some true) (Some "bad")] ++ [mkNetwork (Some true) (Some "good")])
            AFFILIATE_DB []))
  = Some ["Steam"].
Proof.
  apply (last_plugin_overrides sample_fs "plugins" [mkNetwork (Some true) (Some "bad")]
           (mkNetwork (Some true) (Some "good")) AFFILIATE_DB []
           [("Drones", ["DJI"]); ("Gaming", ["Steam"])] "Gaming" ["Steam"]).
  - reflexivity.
  - simpl. repeat constructor; simpl; intuition discriminate.
  - reflexivity.
Defined.

(** ** The period asked of Google Trends *)

(** X26.  The conversion at the head of [fetch_google_trends] always yields
    one of the three periods pytrends knows, and does not recognise its own
    output: converting a converted period gives six months, whatever the
    period was. *)
Theorem timeframe_conversion_is_not_idempotent : forall timeframe,
  In (pytrends_timeframe timeframe) ["today 6-m"; "today 12-m"; "today 3-m"] /\
  pytrends_timeframe (pytrends_timeframe timeframe) = "today 6-m".
Proof.
  intro timeframe. unfold pytrends_timeframe at 1 3.
  destruct (String.eqb timeframe "6mo" || String.eqb timeframe "6-m");
    [split; [simpl; tauto|reflexivity]|].
  destruct (String.eqb timeframe "12mo" || String.eqb timeframe "12-m");
    [split; [simpl; tauto|reflexivity]|].
  destruct (String.eqb timeframe "3mo" || String.eqb timeframe "3-m");
    split; simpl; tauto || reflexivity.
Qed.
